(** * AnIML document codecs (typescript/src/index.ts)

    The TypeScript module declares one io-ts [Decoder] per entity of the
    AnIML data model and a generic [validate] entry point.  This file
    embeds the values a decoder receives (what TypeScript calls
    [unknown]), the io-ts combinators the module uses ([D.string],
    [D.number], [D.nullable], [D.array], [D.struct], [D.lazy]) and every
    codec of the module, and then states what validation does.

    io-ts and fp-ts are dependencies of the module, imported at lines
    1-2; their combinators are written here after io-ts/Decoder 2.2,
    with the error trees they build. *)

From Stdlib Require Import List String ZArith Bool Arith Lia Permutation.
From Stdlib Require Import Floats.SpecFloat.
Import ListNotations.

Local Open Scope string_scope.
Local Open Scope list_scope.

(** ** Runtime values *)

(** A JavaScript number is an IEEE 754 binary64 value. *)
Definition JsNumber : Type := spec_float.

Definition isNaN (n : JsNumber) : bool :=
  match n with
  | S754_nan => true
  | _ => false
  end.

(** The binary64 value nearest to an integer literal. *)
Definition num (z : Z) : JsNumber := binary_normalize 53 1024 z 0 false.

(** The inputs of a decoder: the values [JSON.parse] can produce, and
    [undefined], which is what reading an absent property yields.  An
    object is the list of its own properties in insertion order; its
    keys are distinct. *)
#[local] Unset Elimination Schemes.
Inductive value : Type :=
| VUndefined
| VNull
| VBoolean (b : bool)
| VNumber (n : JsNumber)
| VString (s : String.string)
| VArray (items : list value)
| VObject (entries : list (String.string * value)).
#[local] Set Elimination Schemes.

Abbreviation record := (list (String.string * value)).

(** Property access [i[key]]: [undefined] when the key is absent. *)
Fixpoint get (key : String.string) (entries : record) : value :=
  match entries with
  | [] => VUndefined
  | (k, v) :: rest => if String.eqb k key then v else get key rest
  end.

(** Nesting depth of a value. *)
Fixpoint depth (v : value) : nat :=
  match v with
  | VArray items => S (list_max (map depth items))
  | VObject entries => S (list_max (map (fun e => depth (snd e)) entries))
  | _ => 0
  end.

(** ** fp-ts [Either] *)

Inductive Either (E A : Type) : Type :=
| Left (e : E)
| Right (a : A).
Arguments Left {E A} e.
Arguments Right {E A} a.

Module E.

Definition isLeft {E A} (ma : Either E A) : bool :=
  match ma with
  | Left _ => true
  | Right _ => false
  end.

Definition map {E A B} (f : A -> B) (fa : Either E A) : Either E B :=
  match fa with
  | Left e => Left e
  | Right a => Right (f a)
  end.

Definition mapLeft {E G A} (f : E -> G) (fa : Either E A) : Either G A :=
  match fa with
  | Left e => Left (f e)
  | Right a => Right a
  end.

Definition chain {E A B} (ma : Either E A) (f : A -> Either E B) : Either E B :=
  match ma with
  | Left e => Left e
  | Right a => f a
  end.

End E.

(** ** io-ts [DecodeError]

    The free semigroup over the error constructors of io-ts: [Concat]
    joins the errors collected from the fields of a struct or the items
    of an array. *)

Inductive Kind : Type := Required | Optional.

Inductive DecodeError : Type :=
| Leaf (actual : value) (error : String.string)
| Key (key : String.string) (kind : Kind) (errors : DecodeError)
| Index (index : nat) (kind : Kind) (errors : DecodeError)
| Member (index : nat) (errors : DecodeError)
| Lazy (id : String.string) (errors : DecodeError)
| Concat (left right : DecodeError).

(** The validation applicative of io-ts/Decoder: errors of both sides
    are kept. *)
Definition ap {A B} (fab : Either DecodeError (A -> B))
    (fa : Either DecodeError A) : Either DecodeError B :=
  match fab, fa with
  | Left e1, Left e2 => Left (Concat e1 e2)
  | Left e1, Right _ => Left e1
  | Right _, Left e2 => Left e2
  | Right f, Right a => Right (f a)
  end.

(** [e] holds, among the errors joined at its top, an error for the
    required property [key]. *)
Fixpoint has_key_error (key : String.string) (e : DecodeError) : bool :=
  match e with
  | Key k Required _ => String.eqb k key
  | Concat l r => has_key_error key l || has_key_error key r
  | _ => false
  end.

(** ** The io-ts/Decoder combinators used by the module *)

Module D.

Definition Decoder : Type := value -> Either DecodeError value.

Definition success {A} (a : A) : Either DecodeError A := Right a.

Definition failure {A} (actual : value) (message : String.string)
  : Either DecodeError A :=
  Left (Leaf actual message).

(** Guards: [typeof u === 'string'], [typeof u === 'number' && !isNaN(u)],
    [Array.isArray(u)], and
    [u !== null && typeof u === 'object' && !Array.isArray(u)]. *)
Definition string : Decoder := fun u =>
  match u with
  | VString _ => success u
  | _ => failure u "string"
  end.

Definition number : Decoder := fun u =>
  match u with
  | VNumber n => if isNaN n then failure u "number" else success u
  | _ => failure u "number"
  end.

Definition UnknownArray (u : value) : Either DecodeError (list value) :=
  match u with
  | VArray items => success items
  | _ => failure u "Array<unknown>"
  end.

Definition UnknownRecord (u : value) : Either DecodeError record :=
  match u with
  | VObject entries => success entries
  | _ => failure u "Record<string, unknown>"
  end.

(** [i === null ? of(null) : or.decode(i)], the error of [or] wrapped
    as the second member of a union with [null]. *)
Definition nullable (or : Decoder) : Decoder := fun i =>
  match i with
  | VNull => success VNull
  | _ =>
      E.mapLeft (fun e => Concat (Member 0 (Leaf i "null")) (Member 1 e))
        (or i)
  end.

(** [as.reduce((mbs, a, i) => ap(map(mbs, bs => b => push(bs, b)), f(i, a)), of([]))] *)
Fixpoint reduceWithIndex (f : nat -> value -> Either DecodeError value)
    (i : nat) (as_ : list value) (mbs : Either DecodeError (list value))
  : Either DecodeError (list value) :=
  match as_ with
  | [] => mbs
  | a :: rest =>
      reduceWithIndex f (S i) rest
        (ap (E.map (fun bs b => bs ++ [b]) mbs) (f i a))
  end.

Definition traverseArrayWithIndex
    (as_ : list value) (f : nat -> value -> Either DecodeError value)
  : Either DecodeError (list value) :=
  reduceWithIndex f 0 as_ (success []).

Definition fromArray (item : Decoder) (is_ : list value)
  : Either DecodeError (list value) :=
  traverseArrayWithIndex is_
    (fun index i => E.mapLeft (fun e => Index index Optional e) (item i)).

Definition array (item : Decoder) : Decoder := fun u =>
  E.map VArray (E.chain (UnknownArray u) (fromArray item)).

(** The loop of [traverseRecordWithIndex] over [Object.keys(r)]: the
    keys of a struct's properties are distinct, so the assignment
    [r[key] = b] always adds a new last property. *)
Fixpoint forKeys (f : String.string -> Decoder -> Either DecodeError value)
    (ks : list (String.string * Decoder)) (fr : Either DecodeError record)
  : Either DecodeError record :=
  match ks with
  | [] => fr
  | (key, decoder) :: rest =>
      forKeys f rest
        (ap (E.map (fun r b => r ++ [(key, b)]) fr) (f key decoder))
  end.

Definition traverseRecordWithIndex
    (r : list (String.string * Decoder))
    (f : String.string -> Decoder -> Either DecodeError value)
  : Either DecodeError record :=
  forKeys f r (success []).

Definition fromStruct (properties : list (String.string * Decoder))
    (i : record) : Either DecodeError record :=
  traverseRecordWithIndex properties
    (fun key decoder =>
       E.mapLeft (fun e => Key key Required e) (decoder (get key i))).

Definition struct (properties : list (String.string * Decoder)) : Decoder :=
  fun u => E.map VObject (E.chain (UnknownRecord u) (fromStruct properties)).

(** [lazy(id, f)]: decode with [f()], errors labelled with [id]. *)
Definition lazy (id : String.string) (f : unit -> Decoder) : Decoder :=
  fun u => E.mapLeft (fun e => Lazy id e) (f tt u).

End D.

(** ** The codecs of the module

    Each codec is [D.lazy(id, () => D.struct({...}))]; its property
    list is named [...Props].  The source declares the document root
    first and relies on [D.lazy] for the forward references; here the
    leaves come first. *)

(** line 1061 *)
Definition IncrementProps : list (String.string * D.Decoder) :=
  [
    ("value", D.number)
  ].

Definition IncrementCodec : D.Decoder :=
  D.lazy "Increment" (fun _ => D.struct IncrementProps).

(** line 1042 *)
Definition StartValueProps : list (String.string * D.Decoder) :=
  [
    ("value", D.number)
  ].

Definition StartValueCodec : D.Decoder :=
  D.lazy "StartValue" (fun _ => D.struct StartValueProps).

(** line 1022 *)
Definition EncodedValueSetProps : list (String.string * D.Decoder) :=
  [
    ("start_index", D.nullable D.string);
    ("end_index", D.nullable D.string)
  ].

Definition EncodedValueSetCodec : D.Decoder :=
  D.lazy "EncodedValueSet" (fun _ => D.struct EncodedValueSetProps).

(** line 999 *)
Definition AutoIncrementedValueSetProps : list (String.string * D.Decoder) :=
  [
    ("start_value", StartValueCodec);
    ("increment", IncrementCodec);
    ("start_index", D.nullable D.string);
    ("end_index", D.nullable D.string)
  ].

Definition AutoIncrementedValueSetCodec : D.Decoder :=
  D.lazy "AutoIncrementedValueSet"
    (fun _ => D.struct AutoIncrementedValueSetProps).

(** line 951 *)
Definition IndividualValueSetProps : list (String.string * D.Decoder) :=
  [
    ("values", D.array D.number);
    ("start_index", D.nullable D.string);
    ("end_index", D.nullable D.string)
  ].

Definition IndividualValueSetCodec : D.Decoder :=
  D.lazy "IndividualValueSet" (fun _ => D.struct IndividualValueSetProps).

(** line 925 *)
Definition EndValueProps : list (String.string * D.Decoder) :=
  [
    ("value", D.number)
  ].

Definition EndValueCodec : D.Decoder :=
  D.lazy "EndValue" (fun _ => D.struct EndValueProps).

(** line 905 *)
Definition SIUnitProps : list (String.string * D.Decoder) :=
  [
    ("factor", D.nullable D.string);
    ("exponent", D.nullable D.string);
    ("offset", D.nullable D.string)
  ].

Definition SIUnitCodec : D.Decoder :=
  D.lazy "SIUnit" (fun _ => D.struct SIUnitProps).

(** line 973 *)
Definition UnitProps : list (String.string * D.Decoder) :=
  [
    ("label", D.string);
    ("quantity", D.nullable D.string);
    ("si_unit", D.array SIUnitCodec)
  ].

Definition UnitCodec : D.Decoder :=
  D.lazy "Unit" (fun _ => D.struct UnitProps).

(** line 878 *)
Definition SeriesProps : list (String.string * D.Decoder) :=
  [
    ("name", D.string);
    ("dependency", D.string);
    ("series_id", D.string);
    ("series_type", D.string);
    ("visible", D.nullable D.string);
    ("plot_scale", D.nullable D.string);
    ("value_set", D.nullable IndividualValueSetCodec);
    ("unit", D.nullable UnitCodec)
  ].

Definition SeriesCodec : D.Decoder :=
  D.lazy "Series" (fun _ => D.struct SeriesProps).

(** line 839 *)
Definition SampleInheritanceProps : list (String.string * D.Decoder) :=
  [
    ("role", D.string);
    ("sample_purpose", D.string)
  ].

Definition SampleInheritanceCodec : D.Decoder :=
  D.lazy "SampleInheritance" (fun _ => D.struct SampleInheritanceProps).

(** line 818 *)
Definition SampleReferenceProps : list (String.string * D.Decoder) :=
  [
    ("sample_id", D.string);
    ("role", D.string);
    ("sample_purpose", D.string)
  ].

Definition SampleReferenceCodec : D.Decoder :=
  D.lazy "SampleReference" (fun _ => D.struct SampleReferenceProps).

(** line 793 *)
Definition ParentDataPointReferenceProps : list (String.string * D.Decoder) :=
  [
    ("series_id", D.string);
    ("start_value", StartValueCodec);
    ("end_value", D.nullable EndValueCodec)
  ].

Definition ParentDataPointReferenceCodec : D.Decoder :=
  D.lazy "ParentDataPointReference"
    (fun _ => D.struct ParentDataPointReferenceProps).

(** line 771 *)
Definition ExperimentDataBulkReferenceProps : list (String.string * D.Decoder) :=
  [
    ("role", D.string);
    ("data_purpose", D.string);
    ("experiment_step_id_prefix", D.string)
  ].

Definition ExperimentDataBulkReferenceCodec : D.Decoder :=
  D.lazy "ExperimentDataBulkReference"
    (fun _ => D.struct ExperimentDataBulkReferenceProps).

(** line 749 *)
Definition ExperimentDataReferenceProps : list (String.string * D.Decoder) :=
  [
    ("role", D.string);
    ("data_purpose", D.string);
    ("experiment_step_id", D.string)
  ].

Definition ExperimentDataReferenceCodec : D.Decoder :=
  D.lazy "ExperimentDataReference"
    (fun _ => D.struct ExperimentDataReferenceProps).

(** line 726 *)
Definition ParameterProps : list (String.string * D.Decoder) :=
  [
    ("name", D.string);
    ("parameter_type", D.string);
    ("value", D.number);
    ("unit", D.nullable UnitCodec)
  ].

Definition ParameterCodec : D.Decoder :=
  D.lazy "Parameter" (fun _ => D.struct ParameterProps).

(** line 698 *)
Definition SeriesSetProps : list (String.string * D.Decoder) :=
  [
    ("name", D.string);
    ("length", D.string);
    ("series", D.array SeriesCodec)
  ].

Definition SeriesSetCodec : D.Decoder :=
  D.lazy "SeriesSet" (fun _ => D.struct SeriesSetProps).

(** line 676 *)
Definition SampleReferenceSetProps : list (String.string * D.Decoder) :=
  [
    ("sample_reference", D.array SampleReferenceCodec);
    ("sample_inheritance", D.array SampleInheritanceCodec)
  ].

Definition SampleReferenceSetCodec : D.Decoder :=
  D.lazy "SampleReferenceSet" (fun _ => D.struct SampleReferenceSetProps).

(** line 657 *)
Definition ParentDataPointReferenceSetProps : list (String.string * D.Decoder) :=
  [
    ("parent_data_point_reference", D.array ParentDataPointReferenceCodec)
  ].

Definition ParentDataPointReferenceSetCodec : D.Decoder :=
  D.lazy "ParentDataPointReferenceSet"
    (fun _ => D.struct ParentDataPointReferenceSetProps).

(** line 638 *)
Definition ExperimentDataReferenceSetProps : list (String.string * D.Decoder) :=
  [
    ("experiment_data_reference", D.array ExperimentDataReferenceCodec);
    ("experiment_data_bulk_reference", D.array ExperimentDataBulkReferenceCodec)
  ].

Definition ExperimentDataReferenceSetCodec : D.Decoder :=
  D.lazy "ExperimentDataReferenceSet"
    (fun _ => D.struct ExperimentDataReferenceSetProps).

(** line 616 *)
Definition ExtensionProps : list (String.string * D.Decoder) :=
  [
    ("uri", D.string);
    ("name", D.string);
    ("sha256", D.nullable D.string)
  ].

Definition ExtensionCodec : D.Decoder :=
  D.lazy "Extension" (fun _ => D.struct ExtensionProps).

(** line 589 *)
Definition DeviceProps : list (String.string * D.Decoder) :=
  [
    ("name", D.string);
    ("device_identifier", D.nullable D.string);
    ("manufacturer", D.nullable D.string);
    ("firmware_version", D.nullable D.string);
    ("serial_number", D.nullable D.string)
  ].

Definition DeviceCodec : D.Decoder :=
  D.lazy "Device" (fun _ => D.struct DeviceProps).

(** [CategoryCodec] (line 561) refers to itself through [D.lazy]: the knot is
    tied with a fuel counter, and [CategoryCodec] gives it more fuel than
    the input has nesting levels.  [CategoryCodec_unfold] below shows that
    this is the decoder the source defines. *)
Definition CategoryProps (CategoryCodec : D.Decoder)
  : list (String.string * D.Decoder) :=
  [
    ("name", D.string);
    ("parameter", D.array ParameterCodec);
    ("series_set", D.array SeriesSetCodec);
    ("category", D.array CategoryCodec)
  ].

Fixpoint CategoryCodec_fuel (fuel : nat) : D.Decoder :=
  match fuel with
  | O => fun u => D.failure u "Category"
  | S fuel' =>
      D.lazy "Category" (fun _ => D.struct (CategoryProps (CategoryCodec_fuel fuel')))
  end.

Definition CategoryCodec : D.Decoder :=
  fun u => CategoryCodec_fuel (S (depth u)) u.

(** line 536 *)
Definition TagProps : list (String.string * D.Decoder) :=
  [
    ("name", D.string);
    ("value", D.nullable D.string)
  ].

Definition TagCodec : D.Decoder :=
  D.lazy "Tag" (fun _ => D.struct TagProps).

(** line 513 *)
Definition InfrastructureProps : list (String.string * D.Decoder) :=
  [
    ("sample_reference_set", D.nullable SampleReferenceSetCodec);
    ("parent_data_point_reference_set",
      D.nullable ParentDataPointReferenceSetCodec);
    ("experiment_data_reference_set",
      D.nullable ExperimentDataReferenceSetCodec);
    ("timestamp", D.nullable D.string)
  ].

Definition InfrastructureCodec : D.Decoder :=
  D.lazy "Infrastructure" (fun _ => D.struct InfrastructureProps).

(** line 486 *)
Definition TechniqueProps : list (String.string * D.Decoder) :=
  [
    ("name", D.string);
    ("uri", D.string);
    ("sha256", D.nullable D.string);
    ("extension", D.array ExtensionCodec)
  ].

Definition TechniqueCodec : D.Decoder :=
  D.lazy "Technique" (fun _ => D.struct TechniqueProps).

(** line 427 *)
Definition ResultProps : list (String.string * D.Decoder) :=
  [
    ("name", D.string);
    ("series_set", D.nullable SeriesSetCodec);
    ("category", D.array CategoryCodec)
  ].

Definition ResultCodec : D.Decoder :=
  D.lazy "Result" (fun _ => D.struct ResultProps).

(** line 404 *)
Definition TagSetProps : list (String.string * D.Decoder) :=
  [
    ("tag", D.array TagCodec)
  ].

Definition TagSetCodec : D.Decoder :=
  D.lazy "TagSet" (fun _ => D.struct TagSetProps).

(** line 383 *)
Definition SoftwareProps : list (String.string * D.Decoder) :=
  [
    ("name", D.string);
    ("manufacturer", D.nullable D.string);
    ("version", D.nullable D.string);
    ("operating_system", D.nullable D.string)
  ].

Definition SoftwareCodec : D.Decoder :=
  D.lazy "Software" (fun _ => D.struct SoftwareProps).

(** line 354 *)
Definition AuthorProps : list (String.string * D.Decoder) :=
  [
    ("user_type", D.string);
    ("name", D.string);
    ("affiliation", D.nullable D.string);
    ("role", D.nullable D.string);
    ("email", D.nullable D.string);
    ("phone", D.nullable D.string);
    ("location", D.nullable D.string)
  ].

Definition AuthorCodec : D.Decoder :=
  D.lazy "Author" (fun _ => D.struct AuthorProps).

(** line 456 *)
Definition MethodProps : list (String.string * D.Decoder) :=
  [
    ("name", D.nullable D.string);
    ("author", D.nullable AuthorCodec);
    ("device", D.nullable DeviceCodec);
    ("software", D.nullable SoftwareCodec);
    ("category", D.array CategoryCodec)
  ].

Definition MethodCodec : D.Decoder :=
  D.lazy "Method" (fun _ => D.struct MethodProps).

(** line 321 *)
Definition DiffProps : list (String.string * D.Decoder) :=
  [
    ("scope", D.string);
    ("changed_item", D.string);
    ("old_value", D.string);
    ("new_value", D.string)
  ].

Definition DiffCodec : D.Decoder :=
  D.lazy "Diff" (fun _ => D.struct DiffProps).

(** line 289 *)
Definition ExperimentStepProps : list (String.string * D.Decoder) :=
  [
    ("name", D.string);
    ("experiment_step_id", D.string);
    ("template_used", D.nullable D.string);
    ("comment", D.nullable D.string);
    ("source_data_location", D.nullable D.string);
    ("tag_set", D.nullable TagSetCodec);
    ("technique", D.nullable TechniqueCodec);
    ("infrastructure", D.nullable InfrastructureCodec);
    ("method", D.nullable MethodCodec);
    ("result", D.array ResultCodec)
  ].

Definition ExperimentStepCodec : D.Decoder :=
  D.lazy "ExperimentStep" (fun _ => D.struct ExperimentStepProps).

(** line 244 *)
Definition TemplateProps : list (String.string * D.Decoder) :=
  [
    ("name", D.string);
    ("template_id", D.string);
    ("source_data_location", D.nullable D.string);
    ("tag_set", D.nullable TagSetCodec);
    ("technique", D.nullable TechniqueCodec);
    ("infrastructure", D.nullable InfrastructureCodec);
    ("method", D.nullable MethodCodec);
    ("result", D.array ResultCodec)
  ].

Definition TemplateCodec : D.Decoder :=
  D.lazy "Template" (fun _ => D.struct TemplateProps).

(** line 205 *)
Definition AuditTrailEntryProps : list (String.string * D.Decoder) :=
  [
    ("timestamp", D.string);
    ("author", AuthorCodec);
    ("action", D.string);
    ("software", D.nullable SoftwareCodec);
    ("reason", D.nullable D.string);
    ("comment", D.nullable D.string);
    ("diff", D.array DiffCodec);
    ("reference", D.array D.string)
  ].

Definition AuditTrailEntryCodec : D.Decoder :=
  D.lazy "AuditTrailEntry" (fun _ => D.struct AuditTrailEntryProps).

(** line 160 *)
Definition SampleProps : list (String.string * D.Decoder) :=
  [
    ("name", D.string);
    ("sample_id", D.string);
    ("barcode", D.nullable D.string);
    ("comment", D.nullable D.string);
    ("derived", D.nullable D.string);
    ("container_type", D.nullable D.string);
    ("container_id", D.nullable D.string);
    ("location_in_container", D.nullable D.string);
    ("source_data_location", D.nullable D.string);
    ("tag_set", D.nullable TagSetCodec);
    ("category", D.array CategoryCodec)
  ].

Definition SampleCodec : D.Decoder :=
  D.lazy "Sample" (fun _ => D.struct SampleProps).

(** line 110 *)
Definition ExperimentStepSetProps : list (String.string * D.Decoder) :=
  [
    ("experiment_step", D.array ExperimentStepCodec);
    ("template", D.array TemplateCodec)
  ].

Definition ExperimentStepSetCodec : D.Decoder :=
  D.lazy "ExperimentStepSet" (fun _ => D.struct ExperimentStepSetProps).

(** line 88 *)
Definition AuditTrailEntrySetProps : list (String.string * D.Decoder) :=
  [
    ("audit_trail_entry", D.array AuditTrailEntryCodec)
  ].

Definition AuditTrailEntrySetCodec : D.Decoder :=
  D.lazy "AuditTrailEntrySet" (fun _ => D.struct AuditTrailEntrySetProps).

(** line 68 *)
Definition SampleSetProps : list (String.string * D.Decoder) :=
  [
    ("sample", D.array SampleCodec)
  ].

Definition SampleSetCodec : D.Decoder :=
  D.lazy "SampleSet" (fun _ => D.struct SampleSetProps).

(** line 46 *)
Definition AnIMLProps : list (String.string * D.Decoder) :=
  [
    ("version", D.string);
    ("sample_set", D.nullable SampleSetCodec);
    ("experiment_step_set", D.nullable ExperimentStepSetCodec);
    ("audit_trail_entry_set", D.nullable AuditTrailEntrySetCodec)
  ].

Definition AnIMLCodec : D.Decoder :=
  D.lazy "AnIML" (fun _ => D.struct AnIMLProps).

(** Every codec of the module, with its identifier and property list. *)
Definition codecs
  : list (String.string * list (String.string * D.Decoder) * D.Decoder) :=
  [
    ("AnIML", AnIMLProps, AnIMLCodec);
    ("SampleSet", SampleSetProps, SampleSetCodec);
    ("AuditTrailEntrySet", AuditTrailEntrySetProps, AuditTrailEntrySetCodec);
    ("ExperimentStepSet", ExperimentStepSetProps, ExperimentStepSetCodec);
    ("Sample", SampleProps, SampleCodec);
    ("AuditTrailEntry", AuditTrailEntryProps, AuditTrailEntryCodec);
    ("Template", TemplateProps, TemplateCodec);
    ("ExperimentStep", ExperimentStepProps, ExperimentStepCodec);
    ("Diff", DiffProps, DiffCodec);
    ("Method", MethodProps, MethodCodec);
    ("Author", AuthorProps, AuthorCodec);
    ("Software", SoftwareProps, SoftwareCodec);
    ("TagSet", TagSetProps, TagSetCodec);
    ("Result", ResultProps, ResultCodec);
    ("Technique", TechniqueProps, TechniqueCodec);
    ("Infrastructure", InfrastructureProps, InfrastructureCodec);
    ("Tag", TagProps, TagCodec);
    ("Category", CategoryProps CategoryCodec, CategoryCodec);
    ("Device", DeviceProps, DeviceCodec);
    ("Extension", ExtensionProps, ExtensionCodec);
    ("ExperimentDataReferenceSet",
      ExperimentDataReferenceSetProps, ExperimentDataReferenceSetCodec);
    ("ParentDataPointReferenceSet",
      ParentDataPointReferenceSetProps, ParentDataPointReferenceSetCodec);
    ("SampleReferenceSet", SampleReferenceSetProps, SampleReferenceSetCodec);
    ("SeriesSet", SeriesSetProps, SeriesSetCodec);
    ("Parameter", ParameterProps, ParameterCodec);
    ("ExperimentDataReference",
      ExperimentDataReferenceProps, ExperimentDataReferenceCodec);
    ("ExperimentDataBulkReference",
      ExperimentDataBulkReferenceProps, ExperimentDataBulkReferenceCodec);
    ("ParentDataPointReference",
      ParentDataPointReferenceProps, ParentDataPointReferenceCodec);
    ("SampleReference", SampleReferenceProps, SampleReferenceCodec);
    ("SampleInheritance", SampleInheritanceProps, SampleInheritanceCodec);
    ("Series", SeriesProps, SeriesCodec);
    ("Unit", UnitProps, UnitCodec);
    ("SIUnit", SIUnitProps, SIUnitCodec);
    ("EndValue", EndValueProps, EndValueCodec);
    ("IndividualValueSet", IndividualValueSetProps, IndividualValueSetCodec);
    ("AutoIncrementedValueSet",
      AutoIncrementedValueSetProps, AutoIncrementedValueSetCodec);
    ("EncodedValueSet", EncodedValueSetProps, EncodedValueSetCodec);
    ("StartValue", StartValueProps, StartValueCodec);
    ("Increment", IncrementProps, IncrementCodec)
  ].

(** ** The entry point (lines 5-11) *)

(** [D.draw] renders an error tree as text; the rendering itself is
    not modelled, a text is identified by the tree it draws. *)
Inductive Text : Type := draw (e : DecodeError).

(** [new Error(message)] *)
Inductive JsError : Type := Error (message : Text).

(** How a call ends: it returns a value or throws. *)
Inductive Completion (T : Type) : Type :=
| Returns (t : T)
| Throws (err : JsError).
Arguments Returns {T} t.
Arguments Throws {T} err.

Definition validate (codec : D.Decoder) (v : value) : Completion value :=
  let result := codec v in
  match result with
  | Left e => Throws (Error (draw e))
  | Right a => Returns a
  end.

(** ** Sample inputs and tables used by the statements *)

Definition document (version : String.string) : value :=
  VObject
    [ ("version", VString version);
      ("sample_set", VNull);
      ("experiment_step_set", VNull);
      ("audit_trail_entry_set", VNull) ].

Definition sample (name sample_id : String.string) : value :=
  VObject
    [ ("name", VString name);
      ("sample_id", VString sample_id);
      ("barcode", VNull);
      ("comment", VNull);
      ("derived", VNull);
      ("container_type", VNull);
      ("container_id", VNull);
      ("location_in_container", VNull);
      ("source_data_location", VNull);
      ("tag_set", VNull);
      ("category", VArray []) ].


Definition auto_incremented_value_set (start increment : Z) : value :=
  VObject
    [ ("start_value", VObject [ ("value", VNumber (num start)) ]);
      ("increment", VObject [ ("value", VNumber (num increment)) ]);
      ("start_index", VNull);
      ("end_index", VNull) ].

Definition series (dependency series_id : String.string) (value_set : value)
  : value :=
  VObject
    [ ("name", VString "absorbance");
      ("dependency", VString dependency);
      ("series_id", VString series_id);
      ("series_type", VString "I");
      ("visible", VNull);
      ("plot_scale", VNull);
      ("value_set", value_set);
      ("unit", VNull) ].

Definition series_set (length : String.string) (members : list value) : value :=
  VObject
    [ ("name", VString "spectrum");
      ("length", VString length);
      ("series", VArray members) ].

Definition experiment_step (name experiment_step_id : String.string) : value :=
  VObject
    [ ("name", VString name);
      ("experiment_step_id", VString experiment_step_id);
      ("template_used", VNull);
      ("comment", VNull);
      ("source_data_location", VNull);
      ("tag_set", VNull);
      ("technique", VNull);
      ("infrastructure", VNull);
      ("method", VNull);
      ("result", VArray []) ].

Definition diff (scope : String.string) : value :=
  VObject
    [ ("scope", VString scope);
      ("changed_item", VString "s1");
      ("old_value", VString "a");
      ("new_value", VString "b") ].

Definition duplicate_samples : value :=
  VObject [ ("sample", VArray [sample "a" "s1"; sample "b" "s1"]) ].

Definition duplicate_steps : value :=
  VObject
    [ ("experiment_step",
       VArray [experiment_step "a" "e1"; experiment_step "b" "e1"]);
      ("template", VArray []) ].

Definition duplicate_series : value :=
  series_set "2"
    [series "independent" "x" VNull; series "dependent" "x" VNull].

Definition is_nullable_string (v : value) : bool :=
  match v with
  | VNull | VString _ => true
  | _ => false
  end.

Definition is_number (v : value) : bool :=
  match v with
  | VNumber n => negb (isNaN n)
  | _ => false
  end.

Definition is_string (v : value) : bool :=
  match v with
  | VString _ => true
  | _ => false
  end.


(** The fields each interface of the module declares without [?]
    (lines 39-1059). *)
Definition required : list (String.string * list String.string) :=
  [
    ("AnIML", ["version"]);
    ("SampleSet", []);
    ("AuditTrailEntrySet", []);
    ("ExperimentStepSet", []);
    ("Sample", ["name"; "sample_id"]);
    ("AuditTrailEntry", ["timestamp"; "author"; "action"]);
    ("Template", ["name"; "template_id"]);
    ("ExperimentStep", ["name"; "experiment_step_id"]);
    ("Diff", ["scope"; "changed_item"; "old_value"; "new_value"]);
    ("Author", ["user_type"; "name"]);
    ("Software", ["name"]);
    ("TagSet", []);
    ("Result", ["name"]);
    ("Method", []);
    ("Technique", ["name"; "uri"]);
    ("Infrastructure", []);
    ("Tag", ["name"]);
    ("Category", ["name"]);
    ("Device", ["name"]);
    ("Extension", ["uri"; "name"]);
    ("ExperimentDataReferenceSet", []);
    ("ParentDataPointReferenceSet", ["parent_data_point_reference"]);
    ("SampleReferenceSet", []);
    ("SeriesSet", ["name"; "length"; "series"]);
    ("Parameter", ["name"; "parameter_type"; "value"]);
    ("ExperimentDataReference",
      ["role"; "data_purpose"; "experiment_step_id"]);
    ("ExperimentDataBulkReference",
      ["role"; "data_purpose"; "experiment_step_id_prefix"]);
    ("ParentDataPointReference", ["series_id"; "start_value"]);
    ("SampleReference", ["sample_id"; "role"; "sample_purpose"]);
    ("SampleInheritance", ["role"; "sample_purpose"]);
    ("Series", ["name"; "dependency"; "series_id"; "series_type"]);
    ("SIUnit", []);
    ("EndValue", ["value"]);
    ("IndividualValueSet", ["values"]);
    ("Unit", ["label"]);
    ("AutoIncrementedValueSet", ["start_value"; "increment"]);
    ("EncodedValueSet", []);
    ("StartValue", ["value"]);
    ("Increment", ["value"])
  ].

Fixpoint nodupb (l : list String.string) : bool :=
  match l with
  | [] => true
  | k :: rest => negb (existsb (String.eqb k) rest) && nodupb rest
  end.

(** Every required field of [required] is a declared property of the
    codec of the same identifier, and no codec declares a key twice. *)
Definition tables_agree : bool :=
  forallb
    (fun rf : String.string * list String.string =>
       forallb
         (fun c : String.string * list (String.string * D.Decoder) * D.Decoder =>
            let '(id, props, _) := c in
            if String.eqb (fst rf) id
            then forallb
                   (fun k => existsb (String.eqb k) (List.map fst props))
                   (snd rf)
            else true)
         codecs)
    required
  && forallb
       (fun c : String.string * list (String.string * D.Decoder) * D.Decoder =>
          nodupb (List.map fst (snd (fst c))))
       codecs.

Definition document_with_extras : value :=
  VObject
    [ ("@id", VString "urn:doc:1");
      ("version", VString "0.90");
      ("sample_set", VNull);
      ("experiment_step_set", VNull);
      ("audit_trail_entry_set", VNull);
      ("note", VString "kept elsewhere") ].

Definition sample_reference (sample_purpose : String.string) : value :=
  VObject
    [ ("sample_id", VString "s1");
      ("role", VString "analyte");
      ("sample_purpose", VString sample_purpose) ].

(** [d2] accepts, unchanged, every result of [d1]. *)
Definition reaccepts (d1 d2 : D.Decoder) : Prop :=
  forall u r, d1 u = Right r -> d2 r = Right r.

(** [e] holds, among the errors joined at its top, an error for the
    array item at [index]. *)
Fixpoint has_index_error (index : nat) (e : DecodeError) : bool :=
  match e with
  | Index n Optional _ => Nat.eqb n index
  | Concat l r => has_index_error index l || has_index_error index r
  | _ => false
  end.

(** * Properties of the combinators *)

Section Combinators.

Lemma ap_Left_l {A B} (e : DecodeError) (fa : Either DecodeError A) :
  exists e', @ap A B (Left e) fa = Left e' /\
    forall k, has_key_error k e = true -> has_key_error k e' = true.
Proof.
  destruct fa as [e2 | a]; simpl.
  - exists (Concat e e2). split; [reflexivity |].
    intros k Hk. simpl. rewrite Hk. reflexivity.
  - exists e. split; [reflexivity | auto].
Qed.

(** Once an error has been collected, the loops end in an error. *)
Lemma forKeys_Left f ks :
  forall e, exists e', D.forKeys f ks (Left e) = Left e' /\
    forall k, has_key_error k e = true -> has_key_error k e' = true.
Proof.
  induction ks as [| [key decoder] rest IH]; intros e; cbn [D.forKeys E.map].
  - exists e. split; [reflexivity | auto].
  - destruct (ap_Left_l (B := list (String.string * value)) e (f key decoder)) as (e1 & -> & H1).
    destruct (IH e1) as (e2 & H2 & H3).
    exists e2. split; [exact H2 | auto].
Qed.

Lemma reduceWithIndex_Left f as_ :
  forall i e, exists e', D.reduceWithIndex f i as_ (Left e) = Left e'.
Proof.
  induction as_ as [| a rest IH]; intros i e; cbn [D.reduceWithIndex E.map].
  - exists e. reflexivity.
  - destruct (ap_Left_l (B := list value) e (f i a)) as (e1 & -> & _).
    apply IH.
Qed.

(** The loop over the properties succeeds exactly when every property
    decodes, and then lists the decoded values under the declared
    keys, in the declared order. *)
Lemma forKeys_Right f ks :
  forall acc r,
    D.forKeys f ks (Right acc) = Right r <->
    exists vals,
      r = acc ++ combine (List.map fst ks) vals /\
      Forall2 (fun p v => f (fst p) (snd p) = Right v) ks vals.
Proof.
  induction ks as [| [key decoder] rest IH]; intros acc r; simpl.
  - split.
    + intros [= <-]. exists []. split; [now rewrite app_nil_r | constructor].
    + intros (vals & -> & HF). inversion HF. now rewrite app_nil_r.
  - destruct (f key decoder) as [e | b] eqn:Hf; simpl.
    + split.
      * intros H. destruct (forKeys_Left f rest e) as (e' & He' & _).
        rewrite He' in H. discriminate.
      * intros (vals & _ & HF). inversion HF; subst. simpl in *. congruence.
    + rewrite IH. split.
      * intros (vals & -> & HF). exists (b :: vals). split.
        -- now rewrite <- app_assoc.
        -- constructor; [exact Hf | exact HF].
      * intros (vals & -> & HF). inversion HF as [| p v ks' vals' Hp HF']; subst.
        simpl in Hp. assert (v = b) by congruence. subst v.
        exists vals'. split; [now rewrite <- app_assoc | exact HF'].
Qed.

Lemma reduceWithIndex_Right (item : D.Decoder) (w : nat -> DecodeError -> DecodeError) as_ :
  forall i acc r,
    D.reduceWithIndex (fun index a => E.mapLeft (w index) (item a)) i as_
      (Right acc) = Right r <->
    exists bs, r = acc ++ bs /\ Forall2 (fun a b => item a = Right b) as_ bs.
Proof.
  induction as_ as [| a rest IH]; intros i acc r; simpl.
  - split.
    + intros [= <-]. exists []. split; [now rewrite app_nil_r | constructor].
    + intros (bs & -> & HF). inversion HF. now rewrite app_nil_r.
  - destruct (item a) as [e | b] eqn:Hi; simpl.
    + split.
      * intros H.
        destruct (reduceWithIndex_Left
                    (fun index a => E.mapLeft (w index) (item a))
                    rest (S i) (w i e)) as (e' & He').
        rewrite He' in H. discriminate.
      * intros (bs & _ & HF). inversion HF; subst. congruence.
    + rewrite IH. split.
      * intros (bs & -> & HF). exists (b :: bs). split.
        -- now rewrite <- app_assoc.
        -- constructor; [exact Hi | exact HF].
      * intros (bs & -> & HF). inversion HF as [| a' v as' bs' Ha HF']; subst.
        assert (v = b) by congruence. subst v.
        exists bs'. split; [now rewrite <- app_assoc | exact HF'].
Qed.

(** A failing property fails the struct, with an error under its key. *)
Lemma forKeys_fail (i : record) ks k d e0 :
  In (k, d) ks ->
  d (get k i) = Left e0 ->
  forall fr, exists e',
    D.forKeys
      (fun key decoder =>
         E.mapLeft (fun e => Key key Required e) (decoder (get key i)))
      ks fr = Left e' /\
    has_key_error k e' = true.
Proof.
  induction ks as [| [key decoder] rest IH]; intros Hin Hd fr; simpl.
  - destruct Hin.
  - destruct Hin as [[= -> ->] | Hin].
    + rewrite Hd. simpl.
      set (f := fun (key : String.string) (decoder : D.Decoder) =>
         E.mapLeft (fun e => Key key Required e) (decoder (get key i))).
      destruct fr as [e | acc]; simpl.
      * destruct (forKeys_Left f rest (Concat e (Key k Required e0)))
          as (e' & He' & Hk).
        exists e'. split; [exact He' |].
        apply Hk. simpl. rewrite String.eqb_refl. apply orb_true_r.
      * destruct (forKeys_Left f rest (Key k Required e0))
          as (e' & He' & Hk).
        exists e'. split; [exact He' |].
        apply Hk. simpl. apply String.eqb_refl.
    + apply IH; assumption.
Qed.

End Combinators.

(** ** Decoders built from the combinators *)

Lemma Forall2_Right_unique {A B} (g : A -> Either DecodeError B) l :
  forall bs1 bs2,
    Forall2 (fun a b => g a = Right b) l bs1 ->
    Forall2 (fun a b => g a = Right b) l bs2 ->
    bs1 = bs2.
Proof.
  induction l as [| a l IH]; intros bs1 bs2 H1 H2;
    inversion H1; inversion H2; subst.
  - reflexivity.
  - f_equal; [congruence | now apply IH].
Qed.

Lemma struct_Right id props u r :
  D.lazy id (fun _ => D.struct props) u = Right r <->
  exists i vals,
    u = VObject i /\
    r = VObject (combine (List.map fst props) vals) /\
    Forall2 (fun p v => snd p (get (fst p) i) = Right v) props vals.
Proof.
  unfold D.lazy, D.struct, D.fromStruct, D.traverseRecordWithIndex.
  destruct u as [| | b | n | s | items | i]; simpl;
    try (split; [discriminate | intros (i' & vals & [=] & _)]).
  set (f := fun (key : String.string) (decoder : D.Decoder) =>
              E.mapLeft (fun e => Key key Required e) (decoder (get key i))).
  destruct (D.forKeys f props (D.success [])) as [e | fields] eqn:Hloop; simpl.
  - split; [discriminate |].
    intros (i' & vals & [= <-] & -> & HF). exfalso.
    assert (D.forKeys f props (Right []) = Right (combine (List.map fst props) vals))
      as Hok.
    { apply forKeys_Right. exists vals. split; [reflexivity |].
      eapply Forall2_impl; [| exact HF]. intros [k d] v Hd. simpl in *.
      unfold f. now rewrite Hd. }
    unfold D.success in Hloop. congruence.
  - apply forKeys_Right in Hloop. destruct Hloop as (vals & -> & HF). simpl.
    assert (Forall2 (fun p v => snd p (get (fst p) i) = Right v) props vals)
      as HF'.
    { eapply Forall2_impl; [| exact HF]. intros [k d] v Hd. simpl in *.
      unfold f in Hd. destruct (d (get k i)); simpl in Hd; congruence. }
    split.
    + intros [= <-]. now exists i, vals.
    + intros (i' & vals' & [= <-] & -> & HF2). do 3 f_equal.
      exact (Forall2_Right_unique
               (fun p : String.string * D.Decoder => snd p (get (fst p) i))
               _ _ _ HF' HF2).
Qed.

Lemma struct_fails id props k d e0 (i : record) :
  In (k, d) props ->
  d (get k i) = Left e0 ->
  exists e',
    D.lazy id (fun _ => D.struct props) (VObject i) = Left (Lazy id e') /\
    has_key_error k e' = true.
Proof.
  intros Hin Hd.
  unfold D.lazy, D.struct, D.fromStruct, D.traverseRecordWithIndex. simpl.
  destruct (forKeys_fail i props k d e0 Hin Hd (D.success [])) as (e' & -> & Hk).
  exists e'. split; [reflexivity | exact Hk].
Qed.

Lemma struct_not_object id props u :
  (forall i, u <> VObject i) ->
  D.lazy id (fun _ => D.struct props) u
  = Left (Lazy id (Leaf u "Record<string, unknown>")).
Proof.
  intros Hu. destruct u; try reflexivity. now destruct (Hu entries).
Qed.

Lemma array_Right item u r :
  D.array item u = Right r <->
  exists as_ bs,
    u = VArray as_ /\ r = VArray bs /\
    Forall2 (fun a b => item a = Right b) as_ bs.
Proof.
  unfold D.array, D.fromArray, D.traverseArrayWithIndex.
  destruct u as [| | b | n | s | items | i]; simpl;
    try (split; [discriminate | intros (a' & bs & [=] & _)]).
  pose proof (reduceWithIndex_Right item (fun index e => Index index Optional e)
                items 0 []) as Hloop.
  unfold D.success.
  destruct (D.reduceWithIndex _ 0 items (Right [])) as [e | bs]; simpl.
  - split; [discriminate |].
    intros (a' & bs & [= <-] & -> & HF).
    assert (@Left DecodeError (list value) e = Right bs) by
      (apply Hloop; now exists bs).
    discriminate.
  - destruct (proj1 (Hloop bs) eq_refl) as (bs' & -> & HF). simpl.
    split.
    + intros [= <-]. now exists items, bs'.
    + intros (a' & bs2 & [= <-] & -> & HF2). do 2 f_equal.
      exact (Forall2_Right_unique item _ _ _ HF HF2).
Qed.

Lemma mapLeft_Right {A} (w : DecodeError -> DecodeError)
    (x : Either DecodeError A) (r : A) :
  E.mapLeft w x = Right r <-> x = Right r.
Proof. destruct x; simpl; split; congruence. Qed.

Lemma nullable_Right or u r :
  D.nullable or u = Right r <->
  (u = VNull /\ r = VNull) \/ (u <> VNull /\ or u = Right r).
Proof.
  unfold D.nullable, D.success.
  destruct u; rewrite ?mapLeft_Right;
    try (split;
         [ intros H; right; split; [discriminate | exact H]
         | intros [[H _] | [_ H]]; [discriminate H | exact H] ]).
  split.
  - intros [= <-]. now left.
  - intros [[_ ->] | [H _]]; [reflexivity | now destruct H].
Qed.

Lemma string_Right u r :
  D.string u = Right r <-> exists s, u = VString s /\ r = u.
Proof.
  destruct u; simpl; unfold D.failure, D.success;
    try (split; [discriminate | intros (s' & [=] & _)]).
  split.
  - intros [= <-]. now exists s.
  - intros (s' & _ & ->). reflexivity.
Qed.

Lemma number_Right u r :
  D.number u = Right r <-> exists n, u = VNumber n /\ isNaN n = false /\ r = u.
Proof.
  destruct u; simpl; unfold D.failure, D.success;
    try (split; [discriminate | intros (n' & [=] & _)]).
  destruct (isNaN n) eqn:Hn.
  - split; [discriminate | intros (n' & [= <-] & Hn' & _); congruence].
  - split.
    + intros [= <-]. now exists n.
    + intros (n' & _ & _ & ->). reflexivity.
Qed.

(** ** The recursive codec *)

Lemma depth_item a items : In a items -> depth a < depth (VArray items).
Proof.
  simpl. induction items as [| x items IH]; intros Hin; [destruct Hin |].
  simpl. destruct Hin as [-> | Hin]; [lia | specialize (IH Hin); lia].
Qed.

Lemma depth_get k entries : depth (get k entries) < depth (VObject entries).
Proof.
  simpl. induction entries as [| [k' v] entries IH]; simpl; [lia |].
  destruct (String.eqb k' k); lia.
Qed.

Lemma reduceWithIndex_ext f g as_ :
  (forall i a, In a as_ -> f i a = g i a) ->
  forall i mbs, D.reduceWithIndex f i as_ mbs = D.reduceWithIndex g i as_ mbs.
Proof.
  induction as_ as [| a rest IH]; intros Hfg i mbs; simpl; [reflexivity |].
  rewrite (Hfg i a (or_introl eq_refl)).
  apply IH. intros j b Hb. apply Hfg. now right.
Qed.

(** [D.array] consults its item decoder only on values nested strictly
    inside its input. *)
Lemma array_ext (g1 g2 : D.Decoder) u :
  (forall a, depth a < depth u -> g1 a = g2 a) ->
  D.array g1 u = D.array g2 u.
Proof.
  intros Hg. destruct u; try reflexivity.
  unfold D.array, D.fromArray, D.traverseArrayWithIndex. simpl. f_equal.
  apply reduceWithIndex_ext. intros i a Hin.
  rewrite (Hg a (depth_item a items Hin)). reflexivity.
Qed.

Lemma Category_struct_ext (g1 g2 : D.Decoder) u :
  (forall a, S (depth a) < depth u -> g1 a = g2 a) ->
  D.lazy "Category" (fun _ => D.struct (CategoryProps g1)) u
  = D.lazy "Category" (fun _ => D.struct (CategoryProps g2)) u.
Proof.
  intros Hg. destruct u; try reflexivity.
  assert (D.array g1 (get "category" entries)
          = D.array g2 (get "category" entries)) as Harr.
  { apply array_ext. intros a Ha. apply Hg.
    pose proof (depth_get "category" entries). lia. }
  unfold D.lazy, D.struct, D.fromStruct, D.traverseRecordWithIndex,
    CategoryProps.
  cbn [D.UnknownRecord D.success E.chain D.forKeys].
  rewrite Harr. reflexivity.
Qed.

(** With more fuel than nesting levels the answer no longer depends on
    the fuel. *)
Lemma CategoryCodec_fuel_stable n :
  forall m u, depth u < n -> depth u < m ->
    CategoryCodec_fuel n u = CategoryCodec_fuel m u.
Proof.
  induction n as [| n IH]; intros m u Hn Hm; [lia |].
  destruct m as [| m]; [lia |].
  cbn [CategoryCodec_fuel].
  apply Category_struct_ext. intros a Ha. apply IH; lia.
Qed.

(** [CategoryCodec] satisfies the equation the source defines it by
    (lines 561-566). *)
Lemma CategoryCodec_unfold u :
  CategoryCodec u
  = D.lazy "Category" (fun _ => D.struct (CategoryProps CategoryCodec)) u.
Proof.
  unfold CategoryCodec at 1. cbn [CategoryCodec_fuel].
  apply Category_struct_ext. intros a Ha.
  unfold CategoryCodec. apply CategoryCodec_fuel_stable; lia.
Qed.

(** Every entry of [codecs] is the [D.lazy]/[D.struct] decoder of its
    identifier and property list. *)
Lemma codecs_spec :
  Forall (fun c : String.string * list (String.string * D.Decoder) * D.Decoder =>
            let '(id, props, codec) := c in
            forall u, codec u = D.lazy id (fun _ => D.struct props) u)
    codecs.
Proof.
  unfold codecs.
  repeat (apply Forall_cons;
          [ first [ exact CategoryCodec_unfold | intros u; reflexivity ] |]).
  apply Forall_nil.
Qed.

(** * The claims *)

(** ** Version of the document *)

Lemma document_accepted version :
  validate AnIMLCodec (document version) = Returns (document version).
Proof. reflexivity. Qed.

(** C1: the root codec declares [version: D.string] and nothing
    compares the version with "0.90": documents whose version is "0.91",
    "0.9" or the empty string are returned as valid. *)
Theorem AnIML_version_not_compared :
  validate AnIMLCodec (document "0.91") = Returns (document "0.91") /\
  validate AnIMLCodec (document "0.9") = Returns (document "0.9") /\
  validate AnIMLCodec (document "") = Returns (document "").
Proof. repeat split; apply document_accepted. Qed.

(** ** Errors and the boundary *)

(** C6, as stated, fails: on [null] the entry point throws. *)
Lemma validate_throws_on_null :
  validate AnIMLCodec VNull
  = Throws (Error (draw (Lazy "AnIML" (Leaf VNull "Record<string, unknown>")))).
Proof. reflexivity. Qed.

(** C6, amended: the decoders return their errors as data (a [Left]);
    [validate] turns every such error into a thrown [Error] whose
    message is the drawing of the error, and returns the decoded value
    otherwise. *)
Theorem validate_throws_decode_errors (codec : D.Decoder) (v : value) :
  (forall e, codec v = Left e -> validate codec v = Throws (Error (draw e))) /\
  (forall a, codec v = Right a -> validate codec v = Returns a) /\
  (forall err, validate codec v = Throws err ->
     exists e, codec v = Left e /\ err = Error (draw e)).
Proof.
  unfold validate. destruct (codec v) as [e | a].
  - repeat split; try discriminate.
    + now intros e' [= ->].
    + intros err [= <-]. now exists e.
  - repeat split; try discriminate. now intros a' [= ->].
Qed.

Lemma validate_throws_decode_errors_witness :
  validate AnIMLCodec (VString "0.90")
  = Throws (Error (draw (Lazy "AnIML"
                           (Leaf (VString "0.90") "Record<string, unknown>")))).
Proof.
  apply (proj1 (validate_throws_decode_errors AnIMLCodec (VString "0.90"))).
  reflexivity.
Defined.

Lemma validate_Returns codec u r :
  validate codec u = Returns r <-> codec u = Right r.
Proof.
  unfold validate. destruct (codec u); split; congruence.
Qed.

Ltac invert_Forall2 :=
  repeat match goal with
    | H : Forall2 _ (_ :: _) _ |- _ => inversion H; subst; clear H
    | H : Forall2 _ [] _ |- _ => inversion H; subst; clear H
    end.

(** ** Identifiers inside the sets *)

Ltac struct_accepts i vals :=
  unfold validate;
  match goal with
  | |- match ?codec ?u with _ => _ end = Returns ?r =>
      assert (codec u = Right r) as ->; [| reflexivity]
  end;
  apply struct_Right; exists i, vals;
  split; [reflexivity | split; [reflexivity |]];
  repeat apply Forall2_cons; try apply Forall2_nil; cbn [fst snd].

(** C2: the module documents experiment_step_id as a unique
    identifier (line 264) and series_id as unique per SeriesSet (lines
    853-854), but the set codecs compare no identifiers: a SampleSet
    with two Samples of sample_id "s1", an ExperimentStepSet with two
    steps of experiment_step_id "e1" and a SeriesSet with two Series of
    series_id "x" are all returned as valid. *)
Lemma duplicate_identifiers_accepted :
  validate SampleSetCodec duplicate_samples = Returns duplicate_samples /\
  validate ExperimentStepSetCodec duplicate_steps = Returns duplicate_steps /\
  validate SeriesSetCodec duplicate_series = Returns duplicate_series.
Proof. repeat split; reflexivity. Qed.

(** The same happens with any members.  A SampleSet passes as soon as
    [sample] is an array of values that [SampleCodec] accepts, an
    ExperimentStepSet as soon as [experiment_step] and [template] are
    arrays of accepted steps and templates, a SeriesSet as soon as
    [name] and [length] are strings and [series] is an array of
    accepted Series; the result lists the decoded members in order. *)
Theorem sets_accept_valid_members :
  (forall i samples decoded,
      get "sample" i = VArray samples ->
      Forall2 (fun a b => SampleCodec a = Right b) samples decoded ->
      validate SampleSetCodec (VObject i)
      = Returns (VObject [ ("sample", VArray decoded) ])) /\
  (forall i steps templates dsteps dtemplates,
      get "experiment_step" i = VArray steps ->
      get "template" i = VArray templates ->
      Forall2 (fun a b => ExperimentStepCodec a = Right b) steps dsteps ->
      Forall2 (fun a b => TemplateCodec a = Right b) templates dtemplates ->
      validate ExperimentStepSetCodec (VObject i)
      = Returns (VObject [ ("experiment_step", VArray dsteps);
                           ("template", VArray dtemplates) ])) /\
  (forall i name length members decoded,
      get "name" i = VString name ->
      get "length" i = VString length ->
      get "series" i = VArray members ->
      Forall2 (fun a b => SeriesCodec a = Right b) members decoded ->
      validate SeriesSetCodec (VObject i)
      = Returns (VObject [ ("name", VString name);
                           ("length", VString length);
                           ("series", VArray decoded) ])).
Proof.
  repeat split.
  - intros i samples decoded Hs HF.
    struct_accepts i [VArray decoded].
    rewrite Hs. apply array_Right. now exists samples, decoded.
  - intros i steps templates dsteps dtemplates Hs Ht HFs HFt.
    struct_accepts i [VArray dsteps; VArray dtemplates].
    + rewrite Hs. apply array_Right. now exists steps, dsteps.
    + rewrite Ht. apply array_Right. now exists templates, dtemplates.
  - intros i name length members decoded Hn Hl Hs HF.
    struct_accepts i [VString name; VString length; VArray decoded].
    + now rewrite Hn.
    + now rewrite Hl.
    + rewrite Hs. apply array_Right. now exists members, decoded.
Qed.

Lemma sets_accept_valid_members_witness :
  validate SampleSetCodec
    (VObject [ ("sample", VArray [sample "a" "s1"; sample "b" "s1"]) ])
  = Returns
      (VObject [ ("sample", VArray [sample "a" "s1"; sample "b" "s1"]) ]).
Proof.
  apply (proj1 sets_accept_valid_members
           [ ("sample", VArray [sample "a" "s1"; sample "b" "s1"]) ]
           [sample "a" "s1"; sample "b" "s1"]
           [sample "a" "s1"; sample "b" "s1"]).
  - reflexivity.
  - repeat constructor.
Defined.

(** ** The value set of a Series *)

Lemma nullable_string_Right u r :
  D.nullable D.string u = Right r <-> is_nullable_string u = true /\ r = u.
Proof.
  rewrite nullable_Right, string_Right. split.
  - intros [[-> ->] | [_ (s & -> & ->)]]; now split.
  - intros [Hu ->]. destruct u; try discriminate Hu.
    + now left.
    + right. split; [discriminate | now exists s].
Qed.

Lemma array_number_Right u r :
  D.array D.number u = Right r <->
  exists values, u = VArray values /\ forallb is_number values = true /\ r = u.
Proof.
  rewrite array_Right. split.
  - intros (as_ & bs & -> & -> & HF). exists as_.
    induction HF as [| a b as_ bs Hab _ IH]; [now repeat split |].
    apply number_Right in Hab. destruct Hab as (n & -> & Hn & ->).
    destruct IH as (_ & Hall & [= ->]). simpl. rewrite Hn, Hall.
    now repeat split.
  - intros (values & -> & Hall & ->). exists values, values.
    split; [reflexivity | split; [reflexivity |]].
    induction values as [| a values IH]; [constructor |].
    simpl in Hall. apply andb_true_iff in Hall. destruct Hall as [Ha Hall].
    constructor; [| now apply IH].
    destruct a; try discriminate Ha. simpl in *.
    now destruct (isNaN n).
Qed.

(** What [IndividualValueSetCodec] accepts and returns. *)
Lemma IndividualValueSetCodec_Right u r :
  IndividualValueSetCodec u = Right r <->
  exists i values,
    u = VObject i /\
    get "values" i = VArray values /\
    forallb is_number values = true /\
    is_nullable_string (get "start_index" i) = true /\
    is_nullable_string (get "end_index" i) = true /\
    r = VObject [ ("values", VArray values);
                  ("start_index", get "start_index" i);
                  ("end_index", get "end_index" i) ].
Proof.
  unfold IndividualValueSetCodec. rewrite struct_Right. split.
  - intros (i & vals & -> & -> & HF). unfold IndividualValueSetProps in HF.
    invert_Forall2. cbn [fst snd] in *.
    match goal with H : D.array _ _ = _ |- _ =>
      apply array_number_Right in H; destruct H as (values & Hv & Hall & ->) end.
    repeat match goal with H : D.nullable _ _ = _ |- _ =>
      apply nullable_string_Right in H; destruct H as [? ->] end.
    exists i, values. rewrite Hv. repeat split; assumption.
  - intros (i & values & -> & Hv & Hall & Hs & He & ->).
    exists i, [VArray values; get "start_index" i; get "end_index" i].
    split; [reflexivity | split; [reflexivity |]].
    repeat apply Forall2_cons; try apply Forall2_nil; cbn [fst snd].
    + rewrite Hv. apply array_number_Right. now exists values.
    + now apply nullable_string_Right.
    + now apply nullable_string_Right.
Qed.




(** ** Decoding the value sets *)

Lemma is_string_Right u : is_string u = true -> D.string u = Right u.
Proof. destruct u; try discriminate. reflexivity. Qed.

Lemma is_number_Right u : is_number u = true -> D.number u = Right u.
Proof.
  destruct u; try discriminate. simpl. now destruct (isNaN n).
Qed.

Lemma value_object_Right id u :
  (exists i, u = VObject i /\ is_number (get "value" i) = true) ->
  D.lazy id (fun _ => D.struct [ ("value", D.number) ]) u
  = Right (match u with
           | VObject i => VObject [ ("value", get "value" i) ]
           | _ => u
           end).
Proof.
  intros (i & -> & Hn). apply struct_Right. exists i, [get "value" i].
  split; [reflexivity | split; [reflexivity |]].
  repeat constructor. simpl. now apply is_number_Right.
Qed.

(** C4, as stated, fails: the value set with start 10 and increment 2
    is returned as the record it was given, which is not the sequence
    10, 12, 14, 16. *)
Lemma AutoIncrementedValueSet_not_expanded :
  validate AutoIncrementedValueSetCodec (auto_incremented_value_set 10 2)
  = Returns (auto_incremented_value_set 10 2) /\
  auto_incremented_value_set 10 2
  <> VArray (List.map (fun z => VNumber (num z)) [10; 12; 14; 16]%Z).
Proof. split; [reflexivity | discriminate]. Qed.

(** C4, amended: [AutoIncrementedValueSetCodec] checks the shape of the
    record and returns it unexpanded.  With numbers [s] and [d] under
    [start_value.value] and [increment.value], and [start_index] and
    [end_index] each [null] or a string, validation returns the record
    with [s] and [d] as given; no length is consulted and no sequence
    is computed. *)
Theorem AutoIncrementedValueSet_returned_unexpanded i sv inc s d :
  get "start_value" i = VObject sv ->
  get "value" sv = VNumber s ->
  isNaN s = false ->
  get "increment" i = VObject inc ->
  get "value" inc = VNumber d ->
  isNaN d = false ->
  is_nullable_string (get "start_index" i) = true ->
  is_nullable_string (get "end_index" i) = true ->
  validate AutoIncrementedValueSetCodec (VObject i)
  = Returns
      (VObject [ ("start_value", VObject [ ("value", VNumber s) ]);
                 ("increment", VObject [ ("value", VNumber d) ]);
                 ("start_index", get "start_index" i);
                 ("end_index", get "end_index" i) ]).
Proof.
  intros Hsv Hs Hns Hinc Hd Hnd Hsi Hei.
  struct_accepts i [ VObject [ ("value", VNumber s) ];
                     VObject [ ("value", VNumber d) ];
                     get "start_index" i; get "end_index" i ].
  - rewrite Hsv. unfold StartValueCodec, StartValueProps.
    rewrite value_object_Right; [now rewrite Hs |].
    exists sv. rewrite Hs. simpl. now rewrite Hns.
  - rewrite Hinc. unfold IncrementCodec, IncrementProps.
    rewrite value_object_Right; [now rewrite Hd |].
    exists inc. rewrite Hd. simpl. now rewrite Hnd.
  - now apply nullable_string_Right.
  - now apply nullable_string_Right.
Qed.

Lemma AutoIncrementedValueSet_returned_unexpanded_witness :
  validate AutoIncrementedValueSetCodec (auto_incremented_value_set 10 2)
  = Returns (auto_incremented_value_set 10 2).
Proof.
  apply (AutoIncrementedValueSet_returned_unexpanded
           [ ("start_value", VObject [ ("value", VNumber (num 10)) ]);
             ("increment", VObject [ ("value", VNumber (num 2)) ]);
             ("start_index", VNull);
             ("end_index", VNull) ]
           [ ("value", VNumber (num 10)) ]
           [ ("value", VNumber (num 2)) ]
           (num 10) (num 2)); reflexivity.
Defined.




(** ** Missing and null fields *)

Lemma existsb_eqb_In k l : existsb (String.eqb k) l = true <-> In k l.
Proof.
  rewrite existsb_exists. split.
  - intros (k' & Hin & Heq). apply String.eqb_eq in Heq. now subst.
  - intros Hin. exists k. split; [exact Hin | apply String.eqb_refl].
Qed.

Lemma nodupb_NoDup l : nodupb l = true -> NoDup l.
Proof.
  induction l as [| k l IH]; simpl; intros H; constructor.
  - apply andb_true_iff in H. destruct H as [H _].
    intros Hin. apply existsb_eqb_In in Hin. now rewrite Hin in H.
  - apply IH. apply andb_true_iff in H. tauto.
Qed.

Lemma tables_agree_true : tables_agree = true.
Proof. vm_compute. reflexivity. Qed.

Lemma required_declared id props codec fields k :
  In (id, props, codec) codecs ->
  In (id, fields) required ->
  In k fields ->
  In k (List.map fst props).
Proof.
  intros Hc Hr Hk. pose proof tables_agree_true as H.
  unfold tables_agree in H. apply andb_true_iff in H. destruct H as [H _].
  rewrite forallb_forall in H. specialize (H _ Hr).
  rewrite forallb_forall in H. specialize (H _ Hc).
  cbn [fst snd] in H. rewrite String.eqb_refl in H.
  rewrite forallb_forall in H. specialize (H _ Hk).
  now apply existsb_eqb_In.
Qed.

Lemma codecs_keys_NoDup id props codec :
  In (id, props, codec) codecs -> NoDup (List.map fst props).
Proof.
  intros Hc. pose proof tables_agree_true as H.
  unfold tables_agree in H. apply andb_true_iff in H. destruct H as [_ H].
  rewrite forallb_forall in H. specialize (H _ Hc).
  now apply nodupb_NoDup.
Qed.

(** No decoder used for a property accepts [undefined]. *)
Lemma props_reject_undefined :
  Forall (fun c : String.string * list (String.string * D.Decoder) * D.Decoder =>
            Forall (fun p => E.isLeft (snd p VUndefined) = true) (snd (fst c)))
    codecs.
Proof. unfold codecs. repeat constructor. Qed.

Lemma missing_key_fails id props codec k i :
  In (id, props, codec) codecs ->
  In k (List.map fst props) ->
  get k i = VUndefined ->
  exists e,
    codec (VObject i) = Left (Lazy id e) /\
    has_key_error k e = true /\
    validate codec (VObject i) = Throws (Error (draw (Lazy id e))).
Proof.
  intros Hc Hk Hget.
  pose proof (proj1 (Forall_forall _ _) codecs_spec _ Hc) as Hspec.
  pose proof (proj1 (Forall_forall _ _) props_reject_undefined _ Hc) as Hrej.
  cbn [fst snd] in Hspec, Hrej.
  apply in_map_iff in Hk. destruct Hk as ([k' d] & <- & Hin).
  pose proof (proj1 (Forall_forall _ _) Hrej _ Hin) as Hd. cbn [fst snd] in *.
  destruct (d VUndefined) as [e0 | a] eqn:Hdu; [| discriminate Hd].
  rewrite <- Hget in Hdu.
  destruct (struct_fails id props k' d e0 i Hin Hdu) as (e & He & Hk).
  exists e. unfold validate. rewrite Hspec, He. now repeat split.
Qed.

(** C7: for every entity of the module and every field its interface
    declares as required, an input object without that field is
    rejected: the decoder returns an error for the required property
    under the entity's name, and [validate] throws it.  This covers a
    Sample without name or without sample_id and a SeriesSet without
    length. *)
Theorem missing_required_field_fails id props codec fields k i :
  In (id, props, codec) codecs ->
  In (id, fields) required ->
  In k fields ->
  get k i = VUndefined ->
  exists e,
    codec (VObject i) = Left (Lazy id e) /\
    has_key_error k e = true /\
    validate codec (VObject i) = Throws (Error (draw (Lazy id e))).
Proof.
  intros Hc Hr Hk Hget.
  apply (missing_key_fails id props codec k i Hc); [| exact Hget].
  exact (required_declared id props codec fields k Hc Hr Hk).
Qed.

Ltac in_list := cbn; repeat (first [ left; reflexivity | right ]).

Lemma missing_required_field_fails_witness :
  (exists e,
      SampleCodec (VObject [ ("sample_id", VString "s1") ])
      = Left (Lazy "Sample" e) /\
      has_key_error "name" e = true /\
      validate SampleCodec (VObject [ ("sample_id", VString "s1") ])
      = Throws (Error (draw (Lazy "Sample" e)))) /\
  (exists e,
      SeriesSetCodec (VObject [ ("name", VString "spectrum"); ("series", VArray []) ])
      = Left (Lazy "SeriesSet" e) /\
      has_key_error "length" e = true /\
      validate SeriesSetCodec
        (VObject [ ("name", VString "spectrum"); ("series", VArray []) ])
      = Throws (Error (draw (Lazy "SeriesSet" e)))).
Proof.
  split.
  - apply (missing_required_field_fails "Sample" SampleProps SampleCodec
             ["name"; "sample_id"] "name");
      [in_list | in_list | in_list | reflexivity].
  - apply (missing_required_field_fails "SeriesSet" SeriesSetProps SeriesSetCodec
             ["name"; "length"; "series"] "length");
      [in_list | in_list | in_list | reflexivity].
Defined.

(** C9: every property a codec lists must be present in the input
    object, whether or not the interface marks it optional: without it
    (or with the value [undefined]) the codec fails with an error for
    that property; and a property declared with [D.array] must hold an
    array, [null] is refused. *)
Theorem every_declared_key_must_be_present id props codec :
  In (id, props, codec) codecs ->
  (forall k i,
      In k (List.map fst props) ->
      get k i = VUndefined ->
      exists e,
        codec (VObject i) = Left (Lazy id e) /\
        has_key_error k e = true /\
        validate codec (VObject i) = Throws (Error (draw (Lazy id e)))) /\
  (forall k item i,
      In (k, D.array item) props ->
      get k i = VNull ->
      exists e,
        codec (VObject i) = Left (Lazy id e) /\
        has_key_error k e = true /\
        validate codec (VObject i) = Throws (Error (draw (Lazy id e)))).
Proof.
  intros Hc. split.
  - intros k i Hk Hget. now apply (missing_key_fails id props codec k i).
  - intros k item i Hin Hget.
    pose proof (proj1 (Forall_forall _ _) codecs_spec _ Hc) as Hspec.
    cbn [fst snd] in Hspec.
    assert (D.array item (get k i) = Left (Leaf VNull "Array<unknown>")) as Hd
      by now rewrite Hget.
    destruct (struct_fails id props k _ _ i Hin Hd) as (e & He & Hk).
    exists e. unfold validate. rewrite Hspec, He. now repeat split.
Qed.

Lemma every_declared_key_must_be_present_witness :
  (exists e,
      AnIMLCodec (VObject [ ("version", VString "0.90");
                            ("experiment_step_set", VNull);
                            ("audit_trail_entry_set", VNull) ])
      = Left (Lazy "AnIML" e) /\
      has_key_error "sample_set" e = true /\
      validate AnIMLCodec (VObject [ ("version", VString "0.90");
                                     ("experiment_step_set", VNull);
                                     ("audit_trail_entry_set", VNull) ])
      = Throws (Error (draw (Lazy "AnIML" e)))) /\
  (exists e,
      SampleSetCodec (VObject [ ("sample", VNull) ])
      = Left (Lazy "SampleSet" e) /\
      has_key_error "sample" e = true /\
      validate SampleSetCodec (VObject [ ("sample", VNull) ])
      = Throws (Error (draw (Lazy "SampleSet" e)))).
Proof.
  split.
  - apply (proj1 (every_declared_key_must_be_present
                    "AnIML" AnIMLProps AnIMLCodec ltac:(in_list))
             "sample_set"); [in_list | reflexivity].
  - apply (proj2 (every_declared_key_must_be_present
                    "SampleSet" SampleSetProps SampleSetCodec ltac:(in_list))
             "sample" SampleCodec); [in_list | reflexivity].
Defined.

(** ** The shape of a result *)

Lemma get_absent k (fields : record) :
  ~ In k (List.map fst fields) -> get k fields = VUndefined.
Proof.
  induction fields as [| [k' v] fields IH]; simpl; intros Hk; [reflexivity |].
  destruct (String.eqb k' k) eqn:Heq.
  - apply String.eqb_eq in Heq. tauto.
  - apply IH. tauto.
Qed.

Lemma struct_fields (i : record) props vals :
  Forall2 (fun (p : String.string * D.Decoder) v =>
             snd p (get (fst p) i) = Right v) props vals ->
  List.map fst (combine (List.map fst props) vals) = List.map fst props /\
  (NoDup (List.map fst props) ->
   forall k d, In (k, d) props ->
     d (get k i) = Right (get k (combine (List.map fst props) vals))).
Proof.
  induction 1 as [| [k0 d0] v props vals Hp _ [IHk IHv]]; simpl.
  - split; [reflexivity | intros _ k d []].
  - split; [now rewrite IHk |].
    intros Hnd k d [[= <- <-] | Hin].
    + now rewrite String.eqb_refl.
    + inversion Hnd as [| ? ? Hnotin Hnd']; subst.
      destruct (String.eqb k0 k) eqn:Heq.
      * apply String.eqb_eq in Heq. subst k0. exfalso. apply Hnotin.
        apply in_map_iff. now exists (k, d).
      * now apply IHv.
Qed.

(** C10: when [validate] returns, the input was an object and the
    result is an object with exactly the keys the codec declares, in
    the declared order.  Each declared key holds what its decoder
    returned on the input's value for that key (for a [D.string] or
    [D.number] property, the input's value itself); a key the codec
    does not declare is absent from the result. *)
Theorem validate_returns_declared_keys id props codec u r :
  In (id, props, codec) codecs ->
  validate codec u = Returns r ->
  exists i fields,
    u = VObject i /\
    r = VObject fields /\
    List.map fst fields = List.map fst props /\
    (forall k d, In (k, d) props -> d (get k i) = Right (get k fields)) /\
    (forall k, In (k, D.string) props \/ In (k, D.number) props ->
               get k fields = get k i) /\
    (forall k, ~ In k (List.map fst props) -> get k fields = VUndefined).
Proof.
  intros Hc Hv. apply validate_Returns in Hv.
  pose proof (proj1 (Forall_forall _ _) codecs_spec _ Hc) as Hspec.
  cbn [fst snd] in Hspec. rewrite Hspec in Hv.
  apply struct_Right in Hv. destruct Hv as (i & vals & -> & -> & HF).
  destruct (struct_fields i props vals HF) as [Hkeys Hvals].
  specialize (Hvals (codecs_keys_NoDup id props codec Hc)).
  exists i, (combine (List.map fst props) vals).
  repeat split; try assumption.
  - intros k [Hin | Hin]; apply Hvals in Hin.
    + apply string_Right in Hin. now destruct Hin as (s & _ & ->).
    + apply number_Right in Hin. now destruct Hin as (n & _ & _ & ->).
  - intros k Hk. apply get_absent. now rewrite Hkeys.
Qed.

Lemma validate_returns_declared_keys_witness :
  exists i fields,
    document_with_extras = VObject i /\
    document "0.90" = VObject fields /\
    List.map fst fields = List.map fst AnIMLProps /\
    (forall k d, In (k, d) AnIMLProps -> d (get k i) = Right (get k fields)) /\
    (forall k, In (k, D.string) AnIMLProps \/ In (k, D.number) AnIMLProps ->
               get k fields = get k i) /\
    (forall k, ~ In k (List.map fst AnIMLProps) -> get k fields = VUndefined).
Proof.
  apply (validate_returns_declared_keys "AnIML" AnIMLProps AnIMLCodec
           document_with_extras (document "0.90")); [in_list | reflexivity].
Defined.

(** ** Fields with an enumerated meaning *)

(** C8: the module documents the domains of [Diff.scope] ('element'
    or 'attribute', line 309), [SampleReference.sample_purpose]
    (produced or consumed, line 809) and [Series.dependency]
    (independent or dependent, line 852), but the codecs decode the
    three fields with [D.string] and check no domain: a Diff with scope
    "paragraph", a SampleReference with sample_purpose "borrowed" and a
    Series with dependency "sideways" are returned as valid. *)
Lemma out_of_domain_strings_accepted :
  validate DiffCodec (diff "paragraph") = Returns (diff "paragraph") /\
  validate SampleReferenceCodec (sample_reference "borrowed")
  = Returns (sample_reference "borrowed") /\
  validate SeriesCodec (series "sideways" "x" VNull)
  = Returns (series "sideways" "x" VNull).
Proof. repeat split; reflexivity. Qed.

(** What the codecs do check on the three fields: a value that is not
    a string is rejected with an error for that property, and every
    string passes (the other fields of the record being strings, and
    for the Series of the examples, whatever the dependency string). *)
Theorem enumerated_fields_are_strings :
  (forall i,
      is_string (get "scope" i) = true ->
      is_string (get "changed_item" i) = true ->
      is_string (get "old_value" i) = true ->
      is_string (get "new_value" i) = true ->
      validate DiffCodec (VObject i)
      = Returns (VObject [ ("scope", get "scope" i);
                           ("changed_item", get "changed_item" i);
                           ("old_value", get "old_value" i);
                           ("new_value", get "new_value" i) ])) /\
  (forall i,
      is_string (get "sample_id" i) = true ->
      is_string (get "role" i) = true ->
      is_string (get "sample_purpose" i) = true ->
      validate SampleReferenceCodec (VObject i)
      = Returns (VObject [ ("sample_id", get "sample_id" i);
                           ("role", get "role" i);
                           ("sample_purpose", get "sample_purpose" i) ])) /\
  (forall dependency,
      validate SeriesCodec (series dependency "x" VNull)
      = Returns (series dependency "x" VNull)) /\
  (forall i,
      is_string (get "scope" i) = false ->
      exists e, DiffCodec (VObject i) = Left (Lazy "Diff" e) /\
                has_key_error "scope" e = true) /\
  (forall i,
      is_string (get "sample_purpose" i) = false ->
      exists e, SampleReferenceCodec (VObject i)
                = Left (Lazy "SampleReference" e) /\
                has_key_error "sample_purpose" e = true) /\
  (forall i,
      is_string (get "dependency" i) = false ->
      exists e, SeriesCodec (VObject i) = Left (Lazy "Series" e) /\
                has_key_error "dependency" e = true).
Proof.
  assert (forall u, is_string u = false -> D.string u = Left (Leaf u "string"))
    as Hrej by (intros u Hu; destruct u; try reflexivity; discriminate Hu).
  split; [| split; [| split; [| split; [| split]]]].
  - intros i H1 H2 H3 H4.
    struct_accepts i [ get "scope" i; get "changed_item" i;
                       get "old_value" i; get "new_value" i ];
      now apply is_string_Right.
  - intros i H1 H2 H3.
    struct_accepts i [ get "sample_id" i; get "role" i;
                       get "sample_purpose" i ];
      now apply is_string_Right.
  - intros dependency. reflexivity.
  - intros i Hs.
    apply (struct_fails "Diff" DiffProps "scope" D.string
             (Leaf (get "scope" i) "string") i);
      [in_list | now apply Hrej].
  - intros i Hs.
    apply (struct_fails "SampleReference" SampleReferenceProps
             "sample_purpose" D.string
             (Leaf (get "sample_purpose" i) "string") i);
      [in_list | now apply Hrej].
  - intros i Hs.
    apply (struct_fails "Series" SeriesProps "dependency" D.string
             (Leaf (get "dependency" i) "string") i);
      [in_list | now apply Hrej].
Qed.

Lemma enumerated_fields_are_strings_witness :
  validate DiffCodec (diff "paragraph") = Returns (diff "paragraph").
Proof.
  apply (proj1 enumerated_fields_are_strings
           [ ("scope", VString "paragraph");
             ("changed_item", VString "s1");
             ("old_value", VString "a");
             ("new_value", VString "b") ]); reflexivity.
Defined.

(** * Further properties of the codecs *)

(** ** What a codec reads of its input *)

Lemma forKeys_ext f g ks :
  (forall k d, In (k, d) ks -> f k d = g k d) ->
  forall fr, D.forKeys f ks fr = D.forKeys g ks fr.
Proof.
  induction ks as [| [key decoder] rest IH]; intros Hfg fr; simpl;
    [reflexivity |].
  rewrite (Hfg key decoder (or_introl eq_refl)).
  apply IH. intros k d Hin. apply Hfg. now right.
Qed.

Lemma codec_reads_declared_keys id props codec i1 i2 :
  In (id, props, codec) codecs ->
  (forall k, In k (List.map fst props) -> get k i1 = get k i2) ->
  codec (VObject i1) = codec (VObject i2).
Proof.
  intros Hc Hget.
  pose proof (proj1 (Forall_forall _ _) codecs_spec _ Hc) as Hspec.
  cbn [fst snd] in Hspec. rewrite !Hspec.
  unfold D.lazy, D.struct, D.fromStruct, D.traverseRecordWithIndex.
  cbn [D.UnknownRecord D.success E.chain]. do 2 f_equal.
  apply forKeys_ext. intros k d Hin. rewrite Hget; [reflexivity |].
  apply in_map_iff. now exists (k, d).
Qed.

Lemma get_Permutation k (i1 i2 : record) :
  Permutation i1 i2 -> NoDup (List.map fst i1) -> get k i1 = get k i2.
Proof.
  induction 1 as [| [k0 v0] l l' Hp IH | [k1 v1] [k2 v2] l | l l' l'' H1 IH1 H2 IH2];
    intros Hnd; simpl in *.
  - reflexivity.
  - inversion Hnd; subst. rewrite IH by assumption. reflexivity.
  - destruct (String.eqb k2 k) eqn:E2, (String.eqb k1 k) eqn:E1; try reflexivity.
    apply String.eqb_eq in E1, E2. subst. inversion Hnd; subst.
    exfalso. apply H1. now left.
  - rewrite IH1 by assumption. apply IH2.
    eapply Permutation_NoDup; [| exact Hnd]. now apply Permutation_map.
Qed.

(** X1: a codec looks at its input object only through the properties
    it declares: two objects that agree on every declared key get the
    same outcome from [validate], the same value returned or the same
    error thrown, whatever else they hold. *)
Theorem undeclared_keys_have_no_influence id props codec i1 i2 :
  In (id, props, codec) codecs ->
  (forall k, In k (List.map fst props) -> get k i1 = get k i2) ->
  validate codec (VObject i1) = validate codec (VObject i2).
Proof.
  intros Hc Hget. unfold validate.
  now rewrite (codec_reads_declared_keys id props codec i1 i2 Hc Hget).
Qed.

Lemma undeclared_keys_have_no_influence_witness :
  validate AnIMLCodec document_with_extras
  = validate AnIMLCodec (document "0.90").
Proof.
  apply (undeclared_keys_have_no_influence "AnIML" AnIMLProps AnIMLCodec);
    [in_list |].
  intros k Hk. cbn in Hk.
  repeat (destruct Hk as [<- | Hk]; [reflexivity |]). destruct Hk.
Defined.

(** X2: the order in which an input object lists its properties does
    not matter: reordering the properties of an object (its keys being
    distinct) leaves the outcome of [validate] unchanged. *)
Theorem property_order_is_irrelevant id props codec i1 i2 :
  In (id, props, codec) codecs ->
  NoDup (List.map fst i1) ->
  Permutation i1 i2 ->
  validate codec (VObject i1) = validate codec (VObject i2).
Proof.
  intros Hc Hnd Hp. unfold validate.
  rewrite (codec_reads_declared_keys id props codec i1 i2 Hc);
    [reflexivity |].
  intros k _. now apply get_Permutation.
Qed.

Lemma property_order_is_irrelevant_witness :
  validate DiffCodec
    (VObject [ ("scope", VString "element"); ("changed_item", VString "s1");
               ("old_value", VString "a"); ("new_value", VString "b") ])
  = validate DiffCodec
      (VObject [ ("changed_item", VString "s1"); ("scope", VString "element");
                 ("old_value", VString "a"); ("new_value", VString "b") ]).
Proof.
  apply (property_order_is_irrelevant "Diff" DiffProps DiffCodec);
    [in_list | apply nodupb_NoDup; reflexivity | apply perm_swap].
Defined.

(** ** Which errors a failed struct reports *)

Lemma forKeys_Left_keys (i : record) ks :
  forall fr e',
    D.forKeys
      (fun key decoder =>
         E.mapLeft (fun e => Key key Required e) (decoder (get key i)))
      ks fr = Left e' ->
    forall k,
      has_key_error k e' = true <->
      (exists e, fr = Left e /\ has_key_error k e = true) \/
      (exists d e0, In (k, d) ks /\ d (get k i) = Left e0).
Proof.
  induction ks as [| [key decoder] rest IH]; intros fr e' Hloop k;
    cbn [D.forKeys] in Hloop.
  - subst fr. split.
    + intros Hk. left. now exists e'.
    + intros [(e & [= <-] & Hk) | (d & e0 & [] & _)]. exact Hk.
  - rewrite (IH _ _ Hloop k). clear IH Hloop.
    destruct (decoder (get key i)) as [e0 | b] eqn:Hd;
      destruct fr as [e | acc]; cbn.
    + split.
      * intros [(e1 & [= <-] & Hk) | (d & e1 & Hin & Hd1)].
        -- cbn in Hk. apply orb_true_iff in Hk. destruct Hk as [Hk | Hk].
           ++ left. now exists e.
           ++ apply String.eqb_eq in Hk. subst k. right.
              exists decoder, e0. split; [now left | exact Hd].
        -- right. exists d, e1. split; [now right | exact Hd1].
      * intros [(e1 & [= <-] & Hk) | (d & e1 & [[= <- <-] | Hin] & Hd1)].
        -- left. eexists. split; [reflexivity |]. cbn. now rewrite Hk.
        -- left. eexists. split; [reflexivity |]. cbn.
           rewrite String.eqb_refl. apply orb_true_r.
        -- right. now exists d, e1.
    + split.
      * intros [(e1 & [= <-] & Hk) | (d & e1 & Hin & Hd1)].
        -- cbn in Hk. apply String.eqb_eq in Hk. subst k. right.
           exists decoder, e0. split; [now left | exact Hd].
        -- right. exists d, e1. split; [now right | exact Hd1].
      * intros [(e1 & [=] & _) | (d & e1 & [[= <- <-] | Hin] & Hd1)].
        -- left. eexists. split; [reflexivity |]. cbn. apply String.eqb_refl.
        -- right. now exists d, e1.
    + split.
      * intros [(e1 & [= <-] & Hk) | (d & e1 & Hin & Hd1)].
        -- left. now exists e.
        -- right. exists d, e1. split; [now right | exact Hd1].
      * intros [(e1 & [= <-] & Hk) | (d & e1 & [[= <- <-] | Hin] & Hd1)].
        -- left. now exists e.
        -- congruence.
        -- right. now exists d, e1.
    + split.
      * intros [(e1 & [=] & _) | (d & e1 & Hin & Hd1)].
        right. exists d, e1. split; [now right | exact Hd1].
      * intros [(e1 & [=] & _) | (d & e1 & [[= <- <-] | Hin] & Hd1)].
        -- congruence.
        -- right. now exists d, e1.
Qed.

(** X3: a struct does not stop at its first bad property.  When a
    codec rejects an object, the error it returns, labelled with the
    entity's name, holds an error for a property exactly when the
    decoder of that property failed on the input's value: every
    failing property is reported and no other. *)
Theorem failed_struct_reports_each_failing_property id props codec i e :
  In (id, props, codec) codecs ->
  codec (VObject i) = Left e ->
  exists e',
    e = Lazy id e' /\
    forall k,
      has_key_error k e' = true <->
      exists d e0, In (k, d) props /\ d (get k i) = Left e0.
Proof.
  intros Hc He.
  pose proof (proj1 (Forall_forall _ _) codecs_spec _ Hc) as Hspec.
  cbn [fst snd] in Hspec. rewrite Hspec in He.
  unfold D.lazy, D.struct, D.fromStruct, D.traverseRecordWithIndex in He.
  cbn [D.UnknownRecord D.success E.chain] in He.
  match type of He with
  | E.mapLeft _ (E.map _ ?loop) = _ => destruct loop as [e' | fields] eqn:Hloop
  end; [| discriminate He].
  cbn in He. injection He as <-. exists e'. split; [reflexivity |].
  intros k. rewrite (forKeys_Left_keys i props _ _ Hloop k). split.
  - intros [(e1 & [=] & _) | H]; exact H.
  - intros H. now right.
Qed.

Lemma failed_struct_reports_each_failing_property_witness :
  exists e',
    Lazy "Sample" (Concat (Key "name" Required (Leaf VUndefined "string"))
                          (Key "category" Required
                               (Leaf VUndefined "Array<unknown>")))
    = Lazy "Sample" e' /\
    forall k,
      has_key_error k e' = true <->
      exists d e0,
        In (k, d) SampleProps /\
        d (get k [ ("sample_id", VString "s1"); ("barcode", VNull);
                   ("comment", VNull); ("derived", VNull);
                   ("container_type", VNull); ("container_id", VNull);
                   ("location_in_container", VNull);
                   ("source_data_location", VNull); ("tag_set", VNull) ])
        = Left e0.
Proof.
  apply (failed_struct_reports_each_failing_property
           "Sample" SampleProps SampleCodec); [in_list | reflexivity].
Defined.

(** ** Inputs that are not objects, fields of the wrong type *)

(** X4: every error [validate] throws is labelled with the name of the
    entity being validated; and an input that is not an object (a
    string, a number, [null], [undefined], a boolean, and also an
    array) is refused by every codec with the error that a record was
    expected. *)
Theorem only_objects_are_accepted id props codec u :
  In (id, props, codec) codecs ->
  (forall err, validate codec u = Throws err ->
     exists e, err = Error (draw (Lazy id e))) /\
  ((forall i, u <> VObject i) ->
   validate codec u
   = Throws (Error (draw (Lazy id (Leaf u "Record<string, unknown>"))))).
Proof.
  intros Hc.
  pose proof (proj1 (Forall_forall _ _) codecs_spec _ Hc) as Hspec.
  cbn [fst snd] in Hspec. unfold validate. rewrite Hspec. split.
  - unfold D.lazy. destruct (D.struct props u) as [e | a]; cbn.
    + intros err [= <-]. now exists e.
    + discriminate.
  - intros Hu. now rewrite struct_not_object.
Qed.

Lemma only_objects_are_accepted_witness :
  validate SampleSetCodec (VArray [sample "a" "s1"])
  = Throws (Error (draw (Lazy "SampleSet"
                           (Leaf (VArray [sample "a" "s1"])
                                 "Record<string, unknown>")))).
Proof.
  apply (proj2 (only_objects_are_accepted "SampleSet" SampleSetProps
                  SampleSetCodec (VArray [sample "a" "s1"]) ltac:(in_list))).
  discriminate.
Defined.

(** X5: a property declared with [D.string] must hold a string, a
    property declared with [D.number] a number other than NaN, and a
    property declared with [D.nullable(D.string)] a string or [null];
    any other value there (a number for [SeriesSet.length] or for
    [start_index], a numeric string for [Parameter.value]) makes the
    codec fail with an error for that property. *)
Theorem primitive_fields_are_type_checked id props codec k i :
  In (id, props, codec) codecs ->
  (In (k, D.string) props /\ is_string (get k i) = false) \/
  (In (k, D.number) props /\ is_number (get k i) = false) \/
  (In (k, D.nullable D.string) props /\
   is_nullable_string (get k i) = false) ->
  exists e,
    codec (VObject i) = Left (Lazy id e) /\
    has_key_error k e = true /\
    validate codec (VObject i) = Throws (Error (draw (Lazy id e))).
Proof.
  intros Hc Hk.
  pose proof (proj1 (Forall_forall _ _) codecs_spec _ Hc) as Hspec.
  cbn [fst snd] in Hspec. unfold validate. rewrite Hspec.
  destruct Hk as [[Hin Hs] | [[Hin Hn] | [Hin Hs]]].
  - destruct (struct_fails id props k D.string
                (Leaf (get k i) "string") i Hin) as (e & -> & Hk).
    { destruct (get k i); try reflexivity. discriminate Hs. }
    now exists e.
  - destruct (struct_fails id props k D.number
                (Leaf (get k i) "number") i Hin) as (e & -> & Hk).
    { destruct (get k i); try reflexivity. cbn in *.
      now destruct (isNaN n). }
    now exists e.
  - destruct (struct_fails id props k (D.nullable D.string)
                (Concat (Member 0 (Leaf (get k i) "null"))
                        (Member 1 (Leaf (get k i) "string")))
                i Hin) as (e & -> & Hk).
    { destruct (get k i); try reflexivity; discriminate Hs. }
    now exists e.
Qed.

Lemma primitive_fields_are_type_checked_witness :
  exists e,
    SeriesSetCodec (VObject [ ("name", VString "spectrum");
                              ("length", VNumber (num 4));
                              ("series", VArray []) ])
    = Left (Lazy "SeriesSet" e) /\
    has_key_error "length" e = true /\
    validate SeriesSetCodec (VObject [ ("name", VString "spectrum");
                                       ("length", VNumber (num 4));
                                       ("series", VArray []) ])
    = Throws (Error (draw (Lazy "SeriesSet" e))).
Proof.
  apply (primitive_fields_are_type_checked "SeriesSet" SeriesSetProps
           SeriesSetCodec "length"); [in_list |].
  left. split; [in_list | reflexivity].
Defined.

(** ** Arrays of members *)

Lemma codec_Right_fields id props codec u r :
  In (id, props, codec) codecs ->
  codec u = Right r ->
  exists i fields,
    u = VObject i /\ r = VObject fields /\
    forall k d, In (k, d) props -> d (get k i) = Right (get k fields).
Proof.
  intros Hc Hr.
  pose proof (proj1 (Forall_forall _ _) codecs_spec _ Hc) as Hspec.
  cbn [fst snd] in Hspec. rewrite Hspec in Hr.
  apply struct_Right in Hr. destruct Hr as (i & vals & -> & -> & HF).
  exists i, (combine (List.map fst props) vals).
  split; [reflexivity | split; [reflexivity |]].
  apply (proj2 (struct_fields i props vals HF)).
  exact (codecs_keys_NoDup id props codec Hc).
Qed.

Lemma Forall2_nth_Right (item : D.Decoder) as_ bs :
  Forall2 (fun a b => item a = Right b) as_ bs ->
  List.length bs = List.length as_ /\
  forall n a, nth_error as_ n = Some a ->
    exists b, nth_error bs n = Some b /\ item a = Right b.
Proof.
  induction 1 as [| a b as_ bs Hab _ [IHl IHn]]; cbn.
  - split; [reflexivity |]. intros [| n] a; discriminate.
  - split; [now rewrite IHl |].
    intros [| n] a'; cbn.
    + intros [= <-]. now exists b.
    + apply IHn.
Qed.

(** X6: a property declared with [D.array] comes back as an array of
    the same length, member by member in the input's order: the n-th
    member of the result is what the item decoder returned for the
    n-th member of the input. *)
Theorem arrays_keep_length_and_order id props codec k item u r :
  In (id, props, codec) codecs ->
  In (k, D.array item) props ->
  validate codec u = Returns r ->
  exists i fields members decoded,
    u = VObject i /\ r = VObject fields /\
    get k i = VArray members /\
    get k fields = VArray decoded /\
    List.length decoded = List.length members /\
    forall n a, nth_error members n = Some a ->
      exists b, nth_error decoded n = Some b /\ item a = Right b.
Proof.
  intros Hc Hin Hv. apply validate_Returns in Hv.
  destruct (codec_Right_fields id props codec u r Hc Hv)
    as (i & fields & -> & -> & Hfields).
  specialize (Hfields k _ Hin). apply array_Right in Hfields.
  destruct Hfields as (members & decoded & Hm & Hd & HF).
  exists i, fields, members, decoded.
  destruct (Forall2_nth_Right item members decoded HF) as [Hlen Hnth].
  now repeat split.
Qed.

Lemma arrays_keep_length_and_order_witness :
  exists i fields members decoded,
    duplicate_series = VObject i /\ duplicate_series = VObject fields /\
    get "series" i = VArray members /\
    get "series" fields = VArray decoded /\
    List.length decoded = List.length members /\
    forall n a, nth_error members n = Some a ->
      exists b, nth_error decoded n = Some b /\ SeriesCodec a = Right b.
Proof.
  apply (arrays_keep_length_and_order "SeriesSet" SeriesSetProps
           SeriesSetCodec "series" SeriesCodec);
    [in_list | in_list | reflexivity].
Defined.

Lemma reduceWithIndex_Left_indices (item : D.Decoder) as_ :
  forall i mbs e',
    D.reduceWithIndex
      (fun index a => E.mapLeft (fun e => Index index Optional e) (item a))
      i as_ mbs = Left e' ->
    forall n,
      has_index_error n e' = true <->
      (exists e, mbs = Left e /\ has_index_error n e = true) \/
      (exists m a e0, n = i + m /\ nth_error as_ m = Some a /\ item a = Left e0).
Proof.
  induction as_ as [| a rest IH]; intros i mbs e' Hloop n;
    cbn [D.reduceWithIndex] in Hloop.
  - subst mbs. split.
    + intros Hn. left. now exists e'.
    + intros [(e & [= <-] & Hn) | (m & a & e0 & _ & Hm & _)];
        [exact Hn | now destruct m].
  - rewrite (IH _ _ _ Hloop n). clear IH Hloop.
    destruct (item a) as [e0 | b] eqn:Hi; destruct mbs as [e | acc]; cbn.
    + split.
      * intros [(e1 & [= <-] & Hn) | (m & a1 & e1 & Hm & Hnth & Ha)].
        -- cbn in Hn. apply orb_true_iff in Hn. destruct Hn as [Hn | Hn].
           ++ left. now exists e.
           ++ apply Nat.eqb_eq in Hn. right. exists 0, a, e0.
              repeat split; [lia | exact Hi].
        -- right. exists (S m), a1, e1. repeat split; [lia | assumption ..].
      * intros [(e1 & [= <-] & Hn) | (m & a1 & e1 & Hm & Hnth & Ha)].
        -- left. eexists. split; [reflexivity |]. cbn. now rewrite Hn.
        -- destruct m as [| m]; cbn in Hnth.
           ++ left. eexists. split; [reflexivity |]. cbn.
              replace (Nat.eqb i n) with true by (symmetry; apply Nat.eqb_eq; lia).
              apply orb_true_r.
           ++ right. exists m, a1, e1. repeat split; [lia | assumption ..].
    + split.
      * intros [(e1 & [= <-] & Hn) | (m & a1 & e1 & Hm & Hnth & Ha)].
        -- cbn in Hn. apply Nat.eqb_eq in Hn. right. exists 0, a, e0.
           repeat split; [lia | exact Hi].
        -- right. exists (S m), a1, e1. repeat split; [lia | assumption ..].
      * intros [(e1 & [=] & _) | (m & a1 & e1 & Hm & Hnth & Ha)].
        destruct m as [| m]; cbn in Hnth.
        -- left. eexists. split; [reflexivity |]. cbn.
           apply Nat.eqb_eq. lia.
        -- right. exists m, a1, e1. repeat split; [lia | assumption ..].
    + split.
      * intros [(e1 & [= <-] & Hn) | (m & a1 & e1 & Hm & Hnth & Ha)].
        -- left. now exists e.
        -- right. exists (S m), a1, e1. repeat split; [lia | assumption ..].
      * intros [(e1 & [= <-] & Hn) | (m & a1 & e1 & Hm & Hnth & Ha)].
        -- left. now exists e.
        -- destruct m as [| m]; cbn in Hnth.
           ++ injection Hnth as <-. congruence.
           ++ right. exists m, a1, e1. repeat split; [lia | assumption ..].
    + split.
      * intros [(e1 & [=] & _) | (m & a1 & e1 & Hm & Hnth & Ha)].
        right. exists (S m), a1, e1. repeat split; [lia | assumption ..].
      * intros [(e1 & [=] & _) | (m & a1 & e1 & Hm & Hnth & Ha)].
        destruct m as [| m]; cbn in Hnth.
        -- injection Hnth as <-. congruence.
        -- right. exists m, a1, e1. repeat split; [lia | assumption ..].
Qed.

(** X7: the sets that consist of one array of members (SampleSet,
    AuditTrailEntrySet, TagSet, ParentDataPointReferenceSet) check
    every member and report each bad one: when the array holds a
    member that fails, the error of the set is the error of that one
    property, and under it there is an error for index n exactly when
    the n-th member fails its decoder. *)
Theorem member_errors_name_each_bad_index id k item codec i members e :
  In (id, [ (k, D.array item) ], codec) codecs ->
  get k i = VArray members ->
  codec (VObject i) = Left e ->
  exists e',
    e = Lazy id (Key k Required e') /\
    forall n,
      has_index_error n e' = true <->
      exists a e0, nth_error members n = Some a /\ item a = Left e0.
Proof.
  intros Hc Hget He.
  pose proof (proj1 (Forall_forall _ _) codecs_spec _ Hc) as Hspec.
  cbn [fst snd] in Hspec. rewrite Hspec in He.
  unfold D.lazy, D.struct, D.fromStruct, D.traverseRecordWithIndex,
    D.array, D.fromArray, D.traverseArrayWithIndex in He.
  cbn [D.UnknownRecord D.UnknownArray D.success E.chain D.forKeys] in He.
  rewrite Hget in He. cbn [D.UnknownArray D.success E.chain] in He.
  match type of He with
  | context [D.reduceWithIndex ?f 0 members ?mbs] =>
      destruct (D.reduceWithIndex f 0 members mbs) as [e' | bs] eqn:Hloop
  end; [| discriminate He].
  cbn in He. injection He as <-. exists e'. split; [reflexivity |].
  intros n. rewrite (reduceWithIndex_Left_indices item members _ _ _ Hloop n).
  split.
  - intros [(e1 & [=] & _) | (m & a & e0 & -> & Hm & Ha)]. now exists a, e0.
  - intros (a & e0 & Hm & Ha). right. now exists n, a, e0.
Qed.

Lemma member_errors_name_each_bad_index_witness :
  exists e',
    Lazy "SampleSet"
      (Key "sample" Required
         (Index 1 Optional
            (Lazy "Sample" (Leaf VNull "Record<string, unknown>"))))
    = Lazy "SampleSet" (Key "sample" Required e') /\
    forall n,
      has_index_error n e' = true <->
      exists a e0,
        nth_error [sample "a" "s1"; VNull; sample "b" "s2"] n = Some a /\
        SampleCodec a = Left e0.
Proof.
  apply (member_errors_name_each_bad_index "SampleSet" "sample" SampleCodec
           SampleSetCodec
           [ ("sample", VArray [sample "a" "s1"; VNull; sample "b" "s2"]) ]);
    [in_list | reflexivity | reflexivity].
Defined.

(** ** Value sets *)

(** X8: the [value_set] of a Series takes an IndividualValueSet and
    nothing else.  A value that is neither [null] nor an object with an
    array under [values] (an AutoIncrementedValueSet or EncodedValueSet
    record, a bare array of numbers) makes the Series fail with an
    error for [value_set]. *)
Theorem Series_takes_only_individual_value_sets s :
  get "value_set" s <> VNull ->
  (forall vs items,
      get "value_set" s = VObject vs -> get "values" vs <> VArray items) ->
  exists e,
    SeriesCodec (VObject s) = Left (Lazy "Series" e) /\
    has_key_error "value_set" e = true /\
    validate SeriesCodec (VObject s) = Throws (Error (draw (Lazy "Series" e))).
Proof.
  intros Hnull Hvalues.
  assert (exists e0, IndividualValueSetCodec (get "value_set" s) = Left e0)
    as (e0 & He0).
  { destruct (get "value_set" s) as [| | b | n | x | items | vs] eqn:Hvs;
      try (eexists; reflexivity).
    destruct (struct_fails "IndividualValueSet" IndividualValueSetProps
                "values" (D.array D.number)
                (Leaf (get "values" vs) "Array<unknown>") vs) as (e & He & _).
    - in_list.
    - specialize (Hvalues vs). destruct (get "values" vs); try reflexivity.
      now destruct (Hvalues items eq_refl).
    - eexists. exact He. }
  destruct (struct_fails "Series" SeriesProps "value_set"
              (D.nullable IndividualValueSetCodec)
              (Concat (Member 0 (Leaf (get "value_set" s) "null")) (Member 1 e0))
              s) as (e & He & Hk).
  - in_list.
  - unfold D.nullable. rewrite He0.
    destruct (get "value_set" s); try reflexivity. now destruct Hnull.
  - change (SeriesCodec (VObject s) = Left (Lazy "Series" e)) in He.
    exists e. unfold validate. rewrite He. now repeat split.
Qed.

Lemma Series_takes_only_individual_value_sets_witness :
  exists e,
    SeriesCodec (series "independent" "x" (auto_incremented_value_set 10 2))
    = Left (Lazy "Series" e) /\
    has_key_error "value_set" e = true /\
    validate SeriesCodec
      (series "independent" "x" (auto_incremented_value_set 10 2))
    = Throws (Error (draw (Lazy "Series" e))).
Proof.
  apply (Series_takes_only_individual_value_sets
           [ ("name", VString "absorbance");
             ("dependency", VString "independent");
             ("series_id", VString "x");
             ("series_type", VString "I");
             ("visible", VNull);
             ("plot_scale", VNull);
             ("value_set", auto_incremented_value_set 10 2);
             ("unit", VNull) ]).
  - discriminate.
  - intros vs items [= <-]. discriminate.
Defined.

(** X9: an IndividualValueSet is accepted exactly when [values] is an
    array whose members are all numbers other than NaN (infinities
    pass, numeric strings and [null] do not) and [start_index] and
    [end_index] are each [null] or a string. *)
Theorem IndividualValueSet_accepted_iff i :
  (exists r, validate IndividualValueSetCodec (VObject i) = Returns r) <->
  (exists values,
      get "values" i = VArray values /\
      forallb is_number values = true) /\
  is_nullable_string (get "start_index" i) = true /\
  is_nullable_string (get "end_index" i) = true.
Proof.
  split.
  - intros (r & Hr). apply validate_Returns, IndividualValueSetCodec_Right in Hr.
    destruct Hr as (j & values & [= <-] & Hv & Hall & Hs & He & _).
    split; [now exists values | now split].
  - intros ((values & Hv & Hall) & Hs & He). eexists.
    apply validate_Returns, IndividualValueSetCodec_Right.
    exists i, values. now repeat split.
Qed.

(** ** Validating a result again *)

Lemma get_app_absent k (pre rest : record) :
  ~ In k (List.map fst pre) -> get k (pre ++ rest) = get k rest.
Proof.
  induction pre as [| [k' v] pre IH]; cbn; intros Hk; [reflexivity |].
  destruct (String.eqb k' k) eqn:Heq.
  - apply String.eqb_eq in Heq. tauto.
  - apply IH. tauto.
Qed.

Lemma get_combine keys :
  forall vals (pre : record),
    NoDup keys ->
    (forall k, In k keys -> ~ In k (List.map fst pre)) ->
    List.length keys = List.length vals ->
    Forall2 (fun k v => get k (pre ++ combine keys vals) = v) keys vals.
Proof.
  induction keys as [| k keys IH]; intros [| v vals] pre Hnd Hpre Hlen;
    try discriminate Hlen; constructor.
  - rewrite get_app_absent by (apply Hpre; now left).
    cbn. now rewrite String.eqb_refl.
  - inversion Hnd as [| ? ? Hk Hnd']; subst.
    specialize (IH vals (pre ++ [(k, v)]) Hnd').
    rewrite <- app_assoc in IH. apply IH.
    + intros k' Hk'. rewrite map_app, in_app_iff. cbn.
      intros [Hin | [<- | []]]; [| exact (Hk Hk')].
      apply (Hpre k'); [now right | exact Hin].
    + now injection Hlen.
Qed.

Lemma string_reaccepts : reaccepts D.string D.string.
Proof. intros u r H. apply string_Right in H. now destruct H as (s & -> & ->). Qed.

Lemma number_reaccepts : reaccepts D.number D.number.
Proof.
  intros u r H. apply number_Right in H. destruct H as (n & -> & Hn & ->).
  cbn. now rewrite Hn.
Qed.

Lemma nullable_reaccepts d1 d2 :
  reaccepts d1 d2 -> reaccepts (D.nullable d1) (D.nullable d2).
Proof.
  intros Hd u r H. apply nullable_Right in H.
  destruct H as [[_ ->] | [_ H]]; [reflexivity |].
  apply Hd in H. apply nullable_Right.
  destruct r; try (right; split; [discriminate | exact H]). now left.
Qed.

Lemma array_reaccepts d1 d2 :
  reaccepts d1 d2 -> reaccepts (D.array d1) (D.array d2).
Proof.
  intros Hd u r H. apply array_Right in H.
  destruct H as (as_ & bs & -> & -> & HF). apply array_Right.
  exists bs, bs. split; [reflexivity | split; [reflexivity |]].
  induction HF as [| a b as_ bs Hab _ IH]; constructor; [| exact IH].
  exact (Hd a b Hab).
Qed.

Lemma struct_reaccepts id1 id2 props1 props2 :
  NoDup (List.map fst props1) ->
  Forall2 (fun p1 p2 : String.string * D.Decoder =>
             fst p1 = fst p2 /\ reaccepts (snd p1) (snd p2)) props1 props2 ->
  reaccepts (D.lazy id1 (fun _ => D.struct props1))
            (D.lazy id2 (fun _ => D.struct props2)).
Proof.
  intros Hnd Hprops u r H. apply struct_Right in H.
  destruct H as (i & vals & -> & -> & HF).
  assert (List.map fst props1 = List.map fst props2) as Hkeys.
  { clear - Hprops. induction Hprops as [| p1 p2 l1 l2 [Hk _] _ IH];
      cbn; congruence. }
  pose proof (get_combine (List.map fst props1) vals [] Hnd
                (fun _ _ H => H)) as Hget.
  cbn [app] in Hget. rewrite length_map in Hget.
  specialize (Hget (Forall2_length HF)).
  apply struct_Right.
  exists (combine (List.map fst props1) vals), vals.
  split; [reflexivity | split; [now rewrite Hkeys |]].
  set (fields := combine (List.map fst props1) vals) in *. clearbody fields.
  clear Hkeys Hnd. revert vals HF Hget.
  induction Hprops as [| p1 p2 l1 l2 [Hk Hd] _ IH]; intros vals HF Hget;
    inversion HF; subst; [constructor |].
  cbn in Hget. inversion Hget; subst. constructor.
  - unfold D.Decoder in *. rewrite <- Hk. eapply Hd. eassumption.
  - now apply IH.
Qed.

Create HintDb reaccept.
#[local] Hint Resolve string_reaccepts number_reaccepts nullable_reaccepts
  array_reaccepts : reaccept.

Ltac props_reaccept :=
  apply struct_reaccepts;
  [ apply nodupb_NoDup; reflexivity
  | repeat (apply Forall2_cons;
            [ split; [reflexivity | cbn [snd]; auto with reaccept ] |]);
    apply Forall2_nil ].

Lemma IncrementCodec_reaccepts : reaccepts IncrementCodec IncrementCodec.
Proof. unfold IncrementCodec, IncrementProps. props_reaccept. Qed.
#[local] Hint Resolve IncrementCodec_reaccepts : reaccept.

Lemma StartValueCodec_reaccepts : reaccepts StartValueCodec StartValueCodec.
Proof. unfold StartValueCodec, StartValueProps. props_reaccept. Qed.
#[local] Hint Resolve StartValueCodec_reaccepts : reaccept.

Lemma EncodedValueSetCodec_reaccepts : reaccepts EncodedValueSetCodec EncodedValueSetCodec.
Proof. unfold EncodedValueSetCodec, EncodedValueSetProps. props_reaccept. Qed.
#[local] Hint Resolve EncodedValueSetCodec_reaccepts : reaccept.

Lemma AutoIncrementedValueSetCodec_reaccepts : reaccepts AutoIncrementedValueSetCodec AutoIncrementedValueSetCodec.
Proof. unfold AutoIncrementedValueSetCodec, AutoIncrementedValueSetProps. props_reaccept. Qed.
#[local] Hint Resolve AutoIncrementedValueSetCodec_reaccepts : reaccept.

Lemma IndividualValueSetCodec_reaccepts : reaccepts IndividualValueSetCodec IndividualValueSetCodec.
Proof. unfold IndividualValueSetCodec, IndividualValueSetProps. props_reaccept. Qed.
#[local] Hint Resolve IndividualValueSetCodec_reaccepts : reaccept.

Lemma EndValueCodec_reaccepts : reaccepts EndValueCodec EndValueCodec.
Proof. unfold EndValueCodec, EndValueProps. props_reaccept. Qed.
#[local] Hint Resolve EndValueCodec_reaccepts : reaccept.

Lemma SIUnitCodec_reaccepts : reaccepts SIUnitCodec SIUnitCodec.
Proof. unfold SIUnitCodec, SIUnitProps. props_reaccept. Qed.
#[local] Hint Resolve SIUnitCodec_reaccepts : reaccept.

Lemma UnitCodec_reaccepts : reaccepts UnitCodec UnitCodec.
Proof. unfold UnitCodec, UnitProps. props_reaccept. Qed.
#[local] Hint Resolve UnitCodec_reaccepts : reaccept.

Lemma SeriesCodec_reaccepts : reaccepts SeriesCodec SeriesCodec.
Proof. unfold SeriesCodec, SeriesProps. props_reaccept. Qed.
#[local] Hint Resolve SeriesCodec_reaccepts : reaccept.

Lemma SampleInheritanceCodec_reaccepts : reaccepts SampleInheritanceCodec SampleInheritanceCodec.
Proof. unfold SampleInheritanceCodec, SampleInheritanceProps. props_reaccept. Qed.
#[local] Hint Resolve SampleInheritanceCodec_reaccepts : reaccept.

Lemma SampleReferenceCodec_reaccepts : reaccepts SampleReferenceCodec SampleReferenceCodec.
Proof. unfold SampleReferenceCodec, SampleReferenceProps. props_reaccept. Qed.
#[local] Hint Resolve SampleReferenceCodec_reaccepts : reaccept.

Lemma ParentDataPointReferenceCodec_reaccepts : reaccepts ParentDataPointReferenceCodec ParentDataPointReferenceCodec.
Proof. unfold ParentDataPointReferenceCodec, ParentDataPointReferenceProps. props_reaccept. Qed.
#[local] Hint Resolve ParentDataPointReferenceCodec_reaccepts : reaccept.

Lemma ExperimentDataBulkReferenceCodec_reaccepts : reaccepts ExperimentDataBulkReferenceCodec ExperimentDataBulkReferenceCodec.
Proof. unfold ExperimentDataBulkReferenceCodec, ExperimentDataBulkReferenceProps. props_reaccept. Qed.
#[local] Hint Resolve ExperimentDataBulkReferenceCodec_reaccepts : reaccept.

Lemma ExperimentDataReferenceCodec_reaccepts : reaccepts ExperimentDataReferenceCodec ExperimentDataReferenceCodec.
Proof. unfold ExperimentDataReferenceCodec, ExperimentDataReferenceProps. props_reaccept. Qed.
#[local] Hint Resolve ExperimentDataReferenceCodec_reaccepts : reaccept.

Lemma ParameterCodec_reaccepts : reaccepts ParameterCodec ParameterCodec.
Proof. unfold ParameterCodec, ParameterProps. props_reaccept. Qed.
#[local] Hint Resolve ParameterCodec_reaccepts : reaccept.

Lemma SeriesSetCodec_reaccepts : reaccepts SeriesSetCodec SeriesSetCodec.
Proof. unfold SeriesSetCodec, SeriesSetProps. props_reaccept. Qed.
#[local] Hint Resolve SeriesSetCodec_reaccepts : reaccept.

Lemma SampleReferenceSetCodec_reaccepts : reaccepts SampleReferenceSetCodec SampleReferenceSetCodec.
Proof. unfold SampleReferenceSetCodec, SampleReferenceSetProps. props_reaccept. Qed.
#[local] Hint Resolve SampleReferenceSetCodec_reaccepts : reaccept.

Lemma ParentDataPointReferenceSetCodec_reaccepts : reaccepts ParentDataPointReferenceSetCodec ParentDataPointReferenceSetCodec.
Proof. unfold ParentDataPointReferenceSetCodec, ParentDataPointReferenceSetProps. props_reaccept. Qed.
#[local] Hint Resolve ParentDataPointReferenceSetCodec_reaccepts : reaccept.

Lemma ExperimentDataReferenceSetCodec_reaccepts : reaccepts ExperimentDataReferenceSetCodec ExperimentDataReferenceSetCodec.
Proof. unfold ExperimentDataReferenceSetCodec, ExperimentDataReferenceSetProps. props_reaccept. Qed.
#[local] Hint Resolve ExperimentDataReferenceSetCodec_reaccepts : reaccept.

Lemma ExtensionCodec_reaccepts : reaccepts ExtensionCodec ExtensionCodec.
Proof. unfold ExtensionCodec, ExtensionProps. props_reaccept. Qed.
#[local] Hint Resolve ExtensionCodec_reaccepts : reaccept.

Lemma DeviceCodec_reaccepts : reaccepts DeviceCodec DeviceCodec.
Proof. unfold DeviceCodec, DeviceProps. props_reaccept. Qed.
#[local] Hint Resolve DeviceCodec_reaccepts : reaccept.

Lemma CategoryCodec_fuel_reaccepts fuel :
  reaccepts (CategoryCodec_fuel fuel) CategoryCodec.
Proof.
  induction fuel as [| fuel IH]; intros u r H; [discriminate H |].
  rewrite CategoryCodec_unfold. revert u r H. cbn [CategoryCodec_fuel].
  unfold CategoryProps. props_reaccept.
Qed.

Lemma CategoryCodec_reaccepts : reaccepts CategoryCodec CategoryCodec.
Proof.
  intros u r H. exact (CategoryCodec_fuel_reaccepts (S (depth u)) u r H).
Qed.
#[local] Hint Resolve CategoryCodec_reaccepts : reaccept.

Lemma TagCodec_reaccepts : reaccepts TagCodec TagCodec.
Proof. unfold TagCodec, TagProps. props_reaccept. Qed.
#[local] Hint Resolve TagCodec_reaccepts : reaccept.

Lemma InfrastructureCodec_reaccepts : reaccepts InfrastructureCodec InfrastructureCodec.
Proof. unfold InfrastructureCodec, InfrastructureProps. props_reaccept. Qed.
#[local] Hint Resolve InfrastructureCodec_reaccepts : reaccept.

Lemma TechniqueCodec_reaccepts : reaccepts TechniqueCodec TechniqueCodec.
Proof. unfold TechniqueCodec, TechniqueProps. props_reaccept. Qed.
#[local] Hint Resolve TechniqueCodec_reaccepts : reaccept.

Lemma ResultCodec_reaccepts : reaccepts ResultCodec ResultCodec.
Proof. unfold ResultCodec, ResultProps. props_reaccept. Qed.
#[local] Hint Resolve ResultCodec_reaccepts : reaccept.

Lemma TagSetCodec_reaccepts : reaccepts TagSetCodec TagSetCodec.
Proof. unfold TagSetCodec, TagSetProps. props_reaccept. Qed.
#[local] Hint Resolve TagSetCodec_reaccepts : reaccept.

Lemma SoftwareCodec_reaccepts : reaccepts SoftwareCodec SoftwareCodec.
Proof. unfold SoftwareCodec, SoftwareProps. props_reaccept. Qed.
#[local] Hint Resolve SoftwareCodec_reaccepts : reaccept.

Lemma AuthorCodec_reaccepts : reaccepts AuthorCodec AuthorCodec.
Proof. unfold AuthorCodec, AuthorProps. props_reaccept. Qed.
#[local] Hint Resolve AuthorCodec_reaccepts : reaccept.

Lemma MethodCodec_reaccepts : reaccepts MethodCodec MethodCodec.
Proof. unfold MethodCodec, MethodProps. props_reaccept. Qed.
#[local] Hint Resolve MethodCodec_reaccepts : reaccept.

Lemma DiffCodec_reaccepts : reaccepts DiffCodec DiffCodec.
Proof. unfold DiffCodec, DiffProps. props_reaccept. Qed.
#[local] Hint Resolve DiffCodec_reaccepts : reaccept.

Lemma ExperimentStepCodec_reaccepts : reaccepts ExperimentStepCodec ExperimentStepCodec.
Proof. unfold ExperimentStepCodec, ExperimentStepProps. props_reaccept. Qed.
#[local] Hint Resolve ExperimentStepCodec_reaccepts : reaccept.

Lemma TemplateCodec_reaccepts : reaccepts TemplateCodec TemplateCodec.
Proof. unfold TemplateCodec, TemplateProps. props_reaccept. Qed.
#[local] Hint Resolve TemplateCodec_reaccepts : reaccept.

Lemma AuditTrailEntryCodec_reaccepts : reaccepts AuditTrailEntryCodec AuditTrailEntryCodec.
Proof. unfold AuditTrailEntryCodec, AuditTrailEntryProps. props_reaccept. Qed.
#[local] Hint Resolve AuditTrailEntryCodec_reaccepts : reaccept.

Lemma SampleCodec_reaccepts : reaccepts SampleCodec SampleCodec.
Proof. unfold SampleCodec, SampleProps. props_reaccept. Qed.
#[local] Hint Resolve SampleCodec_reaccepts : reaccept.

Lemma ExperimentStepSetCodec_reaccepts : reaccepts ExperimentStepSetCodec ExperimentStepSetCodec.
Proof. unfold ExperimentStepSetCodec, ExperimentStepSetProps. props_reaccept. Qed.
#[local] Hint Resolve ExperimentStepSetCodec_reaccepts : reaccept.

Lemma AuditTrailEntrySetCodec_reaccepts : reaccepts AuditTrailEntrySetCodec AuditTrailEntrySetCodec.
Proof. unfold AuditTrailEntrySetCodec, AuditTrailEntrySetProps. props_reaccept. Qed.
#[local] Hint Resolve AuditTrailEntrySetCodec_reaccepts : reaccept.

Lemma SampleSetCodec_reaccepts : reaccepts SampleSetCodec SampleSetCodec.
Proof. unfold SampleSetCodec, SampleSetProps. props_reaccept. Qed.
#[local] Hint Resolve SampleSetCodec_reaccepts : reaccept.

Lemma AnIMLCodec_reaccepts : reaccepts AnIMLCodec AnIMLCodec.
Proof. unfold AnIMLCodec, AnIMLProps. props_reaccept. Qed.
#[local] Hint Resolve AnIMLCodec_reaccepts : reaccept.

Lemma codecs_reaccept :
  Forall (fun c : String.string * list (String.string * D.Decoder) * D.Decoder =>
            reaccepts (snd c) (snd c))
    codecs.
Proof.
  unfold codecs.
  repeat (apply Forall_cons; [cbn [snd]; auto with reaccept |]).
  apply Forall_nil.
Qed.

(** X11: validation is idempotent.  What [validate] returns is itself
    a valid input of the same codec, and validating it again returns
    it unchanged: a result holds nothing that a second pass would drop
    or refuse. *)
Theorem validating_a_result_returns_it id props codec u r :
  In (id, props, codec) codecs ->
  validate codec u = Returns r ->
  validate codec r = Returns r.
Proof.
  intros Hc Hv. apply validate_Returns. apply validate_Returns in Hv.
  exact (proj1 (Forall_forall _ _) codecs_reaccept _ Hc u r Hv).
Qed.

Lemma validating_a_result_returns_it_witness :
  validate AnIMLCodec (document "0.90") = Returns (document "0.90").
Proof.
  apply (validating_a_result_returns_it "AnIML" AnIMLProps AnIMLCodec
           document_with_extras (document "0.90")); [in_list | reflexivity].
Defined.

(** ** Fields are judged one by one *)

Lemma Forall2_exists_Right (i : record) (props : list (String.string * D.Decoder)) :
  (forall k d, In (k, d) props -> exists v, d (get k i) = Right v) ->
  exists vals,
    Forall2 (fun p v => snd p (get (fst p) i) = Right v) props vals.
Proof.
  induction props as [| [k d] props IH]; intros Hall.
  - exists []. constructor.
  - destruct (Hall k d (or_introl eq_refl)) as (v & Hv).
    destruct IH as (vals & HF).
    { intros k' d' Hin. apply Hall. now right. }
    exists (v :: vals). now constructor.
Qed.

(** X12: a codec accepts an object exactly when, for each property it
    declares, the decoder of that property accepts the value the
    object holds under that key.  Nothing relates one field to
    another: whether a field passes depends on that field alone. *)
Theorem object_valid_iff_each_field_valid id props codec i :
  In (id, props, codec) codecs ->
  ((exists r, validate codec (VObject i) = Returns r) <->
   (forall k d, In (k, d) props -> exists v, d (get k i) = Right v)).
Proof.
  intros Hc.
  pose proof (proj1 (Forall_forall _ _) codecs_spec _ Hc) as Hspec.
  cbn [fst snd] in Hspec. split.
  - intros (r & Hr) k d Hin. apply validate_Returns in Hr.
    destruct (codec_Right_fields id props codec _ r Hc Hr)
      as (j & fields & [= <-] & _ & Hfields).
    eexists. apply Hfields. exact Hin.
  - intros Hall. destruct (Forall2_exists_Right i props Hall) as (vals & HF).
    eexists. apply validate_Returns. rewrite Hspec. apply struct_Right.
    now exists i, vals.
Qed.

Lemma object_valid_iff_each_field_valid_witness :
  (exists r,
      validate SeriesSetCodec
        (series_set "1000" [series "independent" "x" VNull]) = Returns r) <->
  (forall k d,
      In (k, d) SeriesSetProps ->
      exists v,
        d (get k [ ("name", VString "spectrum");
                   ("length", VString "1000");
                   ("series", VArray [series "independent" "x" VNull]) ])
        = Right v).
Proof.
  apply (object_valid_iff_each_field_valid "SeriesSet" SeriesSetProps
           SeriesSetCodec). in_list.
Defined.
